(** * Demo generator: request assembly, fence stripping, input area and
      preview panel

    A shallow embedding of the logic of [services/gemini.ts]
    ([bringToLife]), of the input area component ([InputArea]) and of the
    preview panel ([LivePreview]), together with the properties of the
    specification that concern them.

    JavaScript strings are sequences of UTF-16 code units; they are
    modelled as lists of [N].  Regular expressions without the [u] flag
    and [String.prototype.trim] work on code units, so this is the level
    at which the source operates. *)

From Stdlib Require Import List NArith Ascii String Bool Arith Lia.
From Stdlib Require Import DecimalString DecimalNat.
Import ListNotations.

Set Implicit Arguments.

(** [String] is loaded for literals only; lengths are lengths of lists. *)
Abbreviation length := Datatypes.length.

(* ================================================================== *)
(** * JavaScript strings *)
(* ================================================================== *)

Module JS.

Definition jsstring := list N.

(** The code units of an ASCII literal. *)
Fixpoint js (s : string) : jsstring :=
  match s with
  | EmptyString => []
  | String c s' => N_of_ascii c :: js s'
  end.

(** The double quote and the line feed, which the literals below need. *)
Definition dq : jsstring := [34%N].
Definition nl : jsstring := [10%N].

(** Decimal rendering of an array length ([Number::toString] on a
    non-negative integer): no leading zero, ["0"] for zero. *)
Definition decimal (n : nat) : jsstring :=
  js (NilZero.string_of_uint (Nat.to_uint n)).

(** Truthiness of a string value: the empty string is falsy. *)
Definition truthy (s : jsstring) : bool :=
  match s with
  | [] => false
  | _ :: _ => true
  end.

(** Truthiness of a possibly undefined string. *)
Definition truthy_opt (o : option jsstring) : bool :=
  match o with
  | Some s => truthy s
  | None => false
  end.

(** ECMAScript WhiteSpace and LineTerminator code points: the class [\s]
    of regular expressions and the characters removed by [trim]. *)
Definition isWhiteSpace (c : N) : bool :=
  existsb (N.eqb c)
    [9; 10; 11; 12; 13; 32; 160; 5760; 8232; 8233; 8239; 8287; 12288; 65279]%N
  || ((8192 <=? c)%N && (c <=? 8202)%N).

(** [strip_prefix p s] is the rest of [s] after the literal prefix [p]. *)
Fixpoint strip_prefix (p s : jsstring) : option jsstring :=
  match p, s with
  | [], _ => Some s
  | a :: p', b :: s' => if N.eqb a b then strip_prefix p' s' else None
  | _ :: _, [] => None
  end.

Definition startsWith (p s : jsstring) : bool :=
  match strip_prefix p s with
  | Some _ => true
  | None => false
  end.

Definition endsWith (p s : jsstring) : bool :=
  startsWith (rev p) (rev s).

(** First occurrence of the literal [p] in [s]: the text before it and
    the text after it. *)
Fixpoint split_at_first (p s : jsstring) : option (jsstring * jsstring) :=
  match strip_prefix p s with
  | Some r => Some ([], r)
  | None =>
      match s with
      | [] => None
      | c :: s' =>
          match split_at_first p s' with
          | Some (pre, post) => Some (c :: pre, post)
          | None => None
          end
      end
  end.

Definition includes (p s : jsstring) : bool :=
  match split_at_first p s with
  | Some _ => true
  | None => false
  end.

(** Greedy [\s*] at the start of a string. *)
Fixpoint skip_ws (s : jsstring) : jsstring :=
  match s with
  | c :: s' => if isWhiteSpace c then skip_ws s' else s
  | [] => []
  end.

(** [String.prototype.trim]. *)
Definition trim (s : jsstring) : jsstring :=
  rev (skip_ws (rev (skip_ws s))).

End JS.

(* ================================================================== *)
(** * services/gemini.ts *)
(* ================================================================== *)

Module Gemini.
Import JS.

(** [interface ImageAttachment]. *)
Record ImageAttachment := {
  base64 : jsstring;
  mimeType : jsstring
}.

(** The elements pushed onto [parts]: [{ text }] and
    [{ inlineData: { data, mimeType } }]. *)
Inductive Part :=
| TextPart (text : jsstring)
| InlineDataPart (data : jsstring) (mime : jsstring).

(** The template literal [finalPrompt], line by line.  The three lines
    with an interpolation come first; [n] is [images.length]. *)
Definition urlLine (url : jsstring) : jsstring :=
  js "  TARGET URL: " ++ dq ++ url ++ dq ++ nl.

Definition instructionsLine (instructions : jsstring) : jsstring :=
  js "  USER INSTRUCTIONS/FLOW: " ++ dq ++ instructions ++ dq ++ nl.

Definition countLine (n : nat) : jsstring :=
  js "  ATTACHED REFERENCE IMAGES: " ++ decimal n ++ nl.

Definition promptHead : jsstring :=
  nl ++
  js "  *** DESKTOP SCREENCAST GENERATION REQUEST ***" ++ nl ++
  js "  " ++ nl.

Definition promptTask : jsstring :=
  js "  " ++ nl ++
  js "  TASK:" ++ nl ++
  js "  1. ANALYZE the URL and any attached images to determine the brand, color palette, and layout." ++ nl ++
  js "  2. GENERATE a high-fidelity HTML/CSS/JS simulation of this website inside a browser frame." ++ nl ++
  js "  3. ANIMATE the cursor and scroll behavior to match the " ++ dq ++
      js "User Instructions" ++ dq ++ js "." ++ nl ++
  js "  4. IF IMAGES are provided, incorporate them intelligently (e.g., as the main page content or as feature sections)." ++ nl ++
  js "  5. ADD a Loom-style presenter bubble narrating the flow described." ++ nl ++
  js "  6. IMPLEMENT Web Speech API for real-time voice narration of the script." ++ nl ++
  js "  " ++ nl ++
  js "  GENERATE THE FULL HTML/JS/CSS NOW." ++ nl ++
  js "  ".

Definition finalPrompt (url instructions : jsstring) (n : nat) : jsstring :=
  promptHead ++
  urlLine url ++
  instructionsLine instructions ++
  countLine n ++
  promptTask.

(** The number that a string of decimal digits denotes; [None] for the
    empty string and for a string with another character. *)
Definition digitValue (c : N) : option nat :=
  if ((48 <=? c) && (c <=? 57))%N then Some (N.to_nat (c - 48)) else None.

Fixpoint parseDigits (s : jsstring) (acc : nat) : option nat :=
  match s with
  | [] => Some acc
  | c :: s' =>
      match digitValue c with
      | Some d => parseDigits s' (10 * acc + d)
      | None => None
      end
  end.

Definition parseCount (s : jsstring) : option nat :=
  match s with
  | [] => None
  | _ :: _ => parseDigits s 0
  end.

(** [parts.push(x)]. *)
Definition push (parts : list Part) (x : Part) : list Part := parts ++ [x].

Definition inlinePart (img : ImageAttachment) : Part :=
  InlineDataPart (base64 img) (mimeType img).

(** The [parts] array that [bringToLife] hands to [generateContent]:
    the array starts empty, the prompt is pushed, then [forEach] pushes
    one inline part per image.  [images] is [None] when the caller omits
    the argument (default [[]]). *)
Definition bringToLife_parts
    (url instructions : jsstring) (images : option (list ImageAttachment))
  : list Part :=
  let images := match images with Some l => l | None => [] end in
  let parts := [] in
  let parts := push parts (TextPart (finalPrompt url instructions (length images))) in
  fold_left (fun parts img => push parts (inlinePart img)) images parts.

Definition isTextPart (p : Part) : bool :=
  match p with TextPart _ => true | InlineDataPart _ _ => false end.

Definition isInlinePart (p : Part) : bool :=
  match p with TextPart _ => false | InlineDataPart _ _ => true end.

(** ** Cleaning the response *)

Definition fence : jsstring := js "```".
Definition fence_html : jsstring := js "```html".

(** [text.replace(/^```html\s*/, '')]. *)
Definition replace_fence_html (text : jsstring) : jsstring :=
  match strip_prefix fence_html text with
  | Some rest => skip_ws rest
  | None => text
  end.

(** [text.replace(/^```\s*/, '')]. *)
Definition replace_fence (text : jsstring) : jsstring :=
  match strip_prefix fence text with
  | Some rest => skip_ws rest
  | None => text
  end.

(** [text.replace(/```$/, '')]: without the [m] flag, [$] is the end of
    the input. *)
Definition replace_fence_end (text : jsstring) : jsstring :=
  if endsWith fence text then firstn (length text - length fence) text
  else text.

(** The chain of the three replacements. *)
Definition stripFences (text : jsstring) : jsstring :=
  replace_fence_end (replace_fence (replace_fence_html text)).

Definition failedPlaceholder : jsstring :=
  js "<!-- Failed to generate content -->".

(** What [bringToLife] returns for a response whose [text] field is
    [responseText] ([None] when it is undefined). *)
Definition cleanResponse (responseText : option jsstring) : jsstring :=
  let text :=
    if truthy_opt responseText
    then match responseText with Some t => t | None => [] end
    else failedPlaceholder in
  stripFences text.

End Gemini.


(* ================================================================== *)
(** * The input area component *)
(* ================================================================== *)

Module InputArea.
Import JS.

(** A browser [File]; the component reads only its [type]. *)
Record File := {
  fileName : jsstring;
  fileType : jsstring
}.

(** The [useState] cells of the component. *)
Record State := {
  url : jsstring;
  instructions : jsstring;
  attachedFiles : list File;
  isDragging : bool
}.

(** [InputAreaProps], [onGenerate] apart. *)
Record Props := {
  isGenerating : bool;
  disabled : bool
}.

(** A call of the [onGenerate] callback. *)
Inductive Call :=
| OnGenerate (url instructions : jsstring) (files : list File).

Definition setAttachedFiles (f : list File -> list File) (st : State) : State :=
  {| url := url st; instructions := instructions st;
     attachedFiles := f (attachedFiles st); isDragging := isDragging st |}.

Definition setInstructions (v : jsstring) (st : State) : State :=
  {| url := url st; instructions := v;
     attachedFiles := attachedFiles st; isDragging := isDragging st |}.

Definition setIsDragging (v : bool) (st : State) : State :=
  {| url := url st; instructions := instructions st;
     attachedFiles := attachedFiles st; isDragging := v |}.

(** The files of a [FileList] that may be null. *)
Definition offered (files : option (list File)) : list File :=
  match files with
  | Some l => l
  | None => []
  end.

(** [file.type.startsWith('image/')]. *)
Definition isImage (file : File) : bool :=
  startsWith (js "image/") (fileType file).

(** The [paste] listener; [clipboardFiles] is [None] when
    [e.clipboardData] is null. *)
Definition handlePaste (props : Props) (clipboardFiles : option (list File))
    (st : State) : State :=
  if disabled props || isGenerating props then st
  else
    match clipboardFiles with
    | Some ((_ :: _) as files) =>
        let newFiles := filter isImage files in
        if 0 <? length newFiles
        then setAttachedFiles (fun prev => prev ++ newFiles) st
        else st
    | _ => st
    end.

(** The [onChange] handler of the file input; [files] is [None] when
    [e.target.files] is null. *)
Definition handleFileChange (files : option (list File)) (st : State) : State :=
  match files with
  | Some ((_ :: _) as files) =>
      let newFiles := files in
      setAttachedFiles (fun prev => prev ++ newFiles) st
  | _ => st
  end.

(** The [onDrop] handler; [files] is [e.dataTransfer.files]. *)
Definition handleDrop (props : Props) (files : option (list File))
    (st : State) : State :=
  let st := setIsDragging false st in
  if disabled props || isGenerating props then st
  else
    match files with
    | Some ((_ :: _) as files) =>
        let newFiles := filter isImage files in
        setAttachedFiles (fun prev => prev ++ newFiles) st
    | _ => st
    end.

(** [prev.filter((_, i) => i !== index)]. *)
Fixpoint filter_index {A} (keep : nat -> bool) (i : nat) (l : list A) : list A :=
  match l with
  | [] => []
  | x :: l' =>
      if keep i then x :: filter_index keep (S i) l'
      else filter_index keep (S i) l'
  end.

Definition removeFile (index : nat) (st : State) : State :=
  setAttachedFiles (filter_index (fun i => negb (i =? index)) 0) st.

(** The condition [!url.trim() && !instructions.trim() &&
    attachedFiles.length === 0], which occurs in [handleSubmit] and in
    the [disabled] attribute of the submit button. *)
Definition nothingToSubmit (st : State) : bool :=
  negb (truthy (trim (url st)))
  && negb (truthy (trim (instructions st)))
  && (length (attachedFiles st) =? 0).

(** [handleSubmit]: the state afterwards and the calls of [onGenerate]
    it makes. *)
Definition handleSubmit (st : State) : State * list Call :=
  if nothingToSubmit st then (st, [])
  else
    let call := OnGenerate (url st) (instructions st) (attachedFiles st) in
    let st := setInstructions [] st in
    let st := setAttachedFiles (fun _ => []) st in
    (st, [call]).

(** The [disabled] attribute of the submit button. *)
Definition submitDisabled (props : Props) (st : State) : bool :=
  nothingToSubmit st || isGenerating props.

End InputArea.

(* ================================================================== *)
(** * The preview panel *)
(* ================================================================== *)

Module LivePreview.
Import JS.

(** Modelled from the spec: the type [Creation] is imported from
    [./CreationHistory], which is not among the sources; the fields are
    those of the data model ([name], [html], optional [originalImage]) and
    those the panel reads. *)
Record Creation := {
  name : jsstring;
  html : jsstring;
  originalImage : option jsstring
}.

(** Modelled from the spec: in the data model [originalImage], when
    present, is a data-URL (of the first reference image, or of a PDF);
    the code that builds creations is not among the sources. *)
Definition isDataUrl (image : jsstring) : bool :=
  startsWith (js "data:") image.

Definition referenceIsDataUrl (c : Creation) : Prop :=
  forall image, originalImage c = Some image -> isDataUrl image = true.

(** The [useState] cells of the panel. *)
Record State := {
  loadingStep : nat;
  showSplitView : bool;
  copiedPrompt : bool;
  isRecording : bool
}.

Definition setShowSplitView (v : bool) (st : State) : State :=
  {| loadingStep := loadingStep st; showSplitView := v;
     copiedPrompt := copiedPrompt st; isRecording := isRecording st |}.

Definition setIsRecording (v : bool) (st : State) : State :=
  {| loadingStep := loadingStep st; showSplitView := showSplitView st;
     copiedPrompt := copiedPrompt st; isRecording := v |}.

(** [creation?.originalImage]. *)
Definition originalImageOf (creation : option Creation) : option jsstring :=
  match creation with
  | Some c => originalImage c
  | None => None
  end.

(** The effect with dependency [[creation]]: React runs it after the
    first render and after every render in which [creation] changed. *)
Definition splitViewEffect (creation : option Creation) (st : State) : State :=
  if truthy_opt (originalImageOf creation)
  then setShowSplitView true st
  else setShowSplitView false st.

(** The compare button: [setShowSplitView(!showSplitView)]. *)
Definition toggleSplitView (st : State) : State :=
  setShowSplitView (negb (showSplitView st)) st.

(** ** File names *)

Definition inRange (lo hi c : N) : bool := ((lo <=? c) && (c <=? hi))%N.

(** The code units that [/[^a-z0-9]/gi] leaves alone.  Without the [u]
    flag, case-insensitive matching canonicalizes a code unit through
    its upper case and never maps a code unit from 128 on to one below
    128, so the class [a-z0-9] matches the ASCII letters and digits and
    nothing else. *)
Definition isAlnum (c : N) : bool :=
  inRange 97 122 c || inRange 65 90 c || inRange 48 57 c.

Definition underscore : N := 95%N.

(** [name.replace(/[^a-z0-9]/gi, '_')]: the [g] flag replaces every
    match, and a match is one code unit. *)
Definition replaceNonAlnum (s : jsstring) : jsstring :=
  map (fun c => if isAlnum c then c else underscore) s.

(** [toLowerCase] on code units below 128, which is all it is applied to
    here ([replaceNonAlnum_ascii] below): [A-Z] move to [a-z], the other
    code units stay. *)
Definition lowerUnit (c : N) : N :=
  if inRange 65 90 c then (c + 32)%N else c.

Definition toLowerCaseAscii (s : jsstring) : jsstring := map lowerUnit s.

(** [creation.name.replace(/[^a-z0-9]/gi, '_').toLowerCase()], the
    expression shared by the two downloads. *)
Definition sanitizeName (nm : jsstring) : jsstring :=
  toLowerCaseAscii (replaceNonAlnum nm).

Definition htmlFileName (c : Creation) : jsstring :=
  sanitizeName (name c) ++ js ".html".

Definition videoFileName (c : Creation) : jsstring :=
  sanitizeName (name c) ++ js "_demo.webm".

(** A download triggered through a temporary anchor element. *)
Record DownloadedFile := {
  dl_name : jsstring;
  dl_type : jsstring
}.

(** [handleDownloadHtml]: the file offered to the user and its text. *)
Definition handleDownloadHtml (creation : option Creation)
  : option (DownloadedFile * jsstring) :=
  match creation with
  | None => None
  | Some c =>
      Some ({| dl_name := htmlFileName c; dl_type := js "text/html" |}, html c)
  end.

(** The code unit that [sanitizeName] puts in place of [c] -- see
    [sanitizeName_map] below. *)
Definition sanitizeUnit (c : N) : N :=
  if isAlnum c then lowerUnit c else underscore.

(** Lower-case ASCII letters, digits and the underscore. *)
Definition isFileNameUnit (c : N) : bool :=
  inRange 97 122 c || inRange 48 57 c || N.eqb c underscore.

(** ** Copying the embedded script *)

Definition openTag : jsstring :=
  js "<script id=" ++ dq ++ js "design-prompt-data" ++ dq ++
  js " type=" ++ dq ++ js "text/plain" ++ dq ++ js ">".

Definition closeTag : jsstring := js "</script>".

(** The pattern matched at the start of [s]: the opening tag, then the
    lazy [[\s\S]*?], which stops at the first closing tag.  The result
    is capture group 1. *)
Definition matchTagHere (s : jsstring) : option jsstring :=
  match strip_prefix openTag s with
  | Some rest =>
      match split_at_first closeTag rest with
      | Some (content, _) => Some content
      | None => None
      end
  | None => None
  end.

(** [html.match(...)]: the match at the leftmost position that has one. *)
Fixpoint matchTag (s : jsstring) : option jsstring :=
  match matchTagHere s with
  | Some content => Some content
  | None =>
      match s with
      | [] => None
      | _ :: s' => matchTag s'
      end
  end.

(** [s] contains the tag: the opening tag, some text, the closing tag. *)
Definition containsTag (s : jsstring) : Prop :=
  exists pre content post, s = pre ++ openTag ++ content ++ closeTag ++ post.

Definition fallbackPrompt (c : Creation) : jsstring :=
  js "Create a product demo video for " ++ name c ++
  js ". Include cursor animations and voiceover script.".

(** The text [handleCopyPrompt] passes to [clipboard.writeText]:
    [match && match[1]] is falsy when there is no match and when the
    captured text is empty. *)
Definition promptText (c : Creation) : jsstring :=
  match matchTag (html c) with
  | Some content =>
      if truthy content then trim content else fallbackPrompt c
  | None => fallbackPrompt c
  end.

Definition handleCopyPrompt (creation : option Creation) : option jsstring :=
  match creation with
  | None => None
  | Some c => Some (promptText c)
  end.

End LivePreview.

(* ================================================================== *)
(** * Recording the preview *)
(* ================================================================== *)

Module Recording.
Import JS LivePreview.

(** What the browser does when [handleRecordVideo] calls into it.  An
    exception is represented by its name. *)
Record Browser := {
  (** [navigator.mediaDevices?.getDisplayMedia] is defined *)
  hasGetDisplayMedia : bool;
  (** [Some e]: the promise of [getDisplayMedia] rejects with [e], as
      when the user denies or cancels the prompt *)
  displayMediaRejects : option jsstring;
  (** [Some e]: [new MediaRecorder(...)] throws [e] *)
  newRecorderThrows : option jsstring;
  (** [Some e]: [mediaRecorder.start()] throws [e] *)
  startThrows : option jsstring;
  (** [iframeRef.current] is set *)
  iframeMounted : bool
}.

(** The observable actions of the handler and of its callbacks. *)
Inductive Event :=
| Alert (msg : jsstring)
| GetDisplayMedia
| RecorderStarted
| ConsoleError (msg err : jsstring)
| Download (file : DownloadedFile)
| TracksStopped.

Inductive RecorderState := Inactive | Active.

(** The recorder created by the handler: its state and the creation
    captured by its [onstop] closure, once the closure is installed. *)
Record MediaRecorder := {
  rec_state : RecorderState;
  rec_onstop : option Creation
}.

Record World := {
  ui : State;
  recorder : option MediaRecorder;
  log : list Event
}.

(** Computations that read and write the world and may throw. *)
Inductive Result (A : Type) :=
| Ok (a : A)
| Thrown (e : jsstring).
Arguments Ok {A} a.
Arguments Thrown {A} e.

Definition Eff (A : Type) : Type := World -> Result A * World.

Definition ret {A} (a : A) : Eff A := fun w => (Ok a, w).

Definition bind {A B} (m : Eff A) (k : A -> Eff B) : Eff B :=
  fun w =>
    match m w with
    | (Ok a, w') => k a w'
    | (Thrown e, w') => (Thrown e, w')
    end.

Definition throw {A} (e : jsstring) : Eff A := fun w => (Thrown e, w).

(** [try { body } catch (err) { handler }]. *)
Definition try_catch {A} (body : Eff A) (handler : jsstring -> Eff A) : Eff A :=
  fun w =>
    match body w with
    | (Ok a, w') => (Ok a, w')
    | (Thrown e, w') => handler e w'
    end.

Declare Scope eff_scope.
Delimit Scope eff_scope with eff.
Notation "m ;; k" := (bind m (fun _ => k))
  (at level 61, right associativity) : eff_scope.
Local Open Scope eff_scope.

Definition emit (e : Event) : Eff unit :=
  fun w => (Ok tt, {| ui := ui w; recorder := recorder w; log := log w ++ [e] |}).

Definition modifyUi (f : State -> State) : Eff unit :=
  fun w => (Ok tt, {| ui := f (ui w); recorder := recorder w; log := log w |}).

Definition setRecorder (r : option MediaRecorder) : Eff unit :=
  fun w => (Ok tt, {| ui := ui w; recorder := r; log := log w |}).

Definition when (b : bool) (m : Eff unit) : Eff unit :=
  if b then m else ret tt.

(** [await navigator.mediaDevices.getDisplayMedia(...)]. *)
Definition getDisplayMedia (b : Browser) : Eff unit :=
  emit GetDisplayMedia ;;
  match displayMediaRejects b with
  | Some e => throw e
  | None => ret tt
  end.

(** [new MediaRecorder(stream, ...)]. *)
Definition newMediaRecorder (b : Browser) : Eff unit :=
  match newRecorderThrows b with
  | Some e => throw e
  | None => setRecorder (Some {| rec_state := Inactive; rec_onstop := None |})
  end.

(** [mediaRecorder.onstop = ...]; the closure captures [creation]. *)
Definition installOnStop (c : Creation) : Eff unit :=
  fun w =>
    match recorder w with
    | Some r =>
        setRecorder (Some {| rec_state := rec_state r; rec_onstop := Some c |}) w
    | None => (Ok tt, w)
    end.

(** [mediaRecorder.start()]. *)
Definition recorderStart (b : Browser) : Eff unit :=
  match startThrows b with
  | Some e => throw e
  | None =>
      fun w =>
        match recorder w with
        | Some r =>
            (setRecorder (Some {| rec_state := Active; rec_onstop := rec_onstop r |}) ;;
             emit RecorderStarted) w
        | None => (Ok tt, w)
        end
  end.

Definition unsupportedMsg : jsstring :=
  js "Your browser does not support screen recording.".

Definition shareAudioMsg : jsstring :=
  js "Please select 'This Tab' (or the current window) and ensure 'Share Audio' is checked to capture the voiceover.".

Definition errorMsg : jsstring := js "Error starting recording:".

(** [iframeRef.current.srcDoc = iframeRef.current.srcDoc], done when the
    ref is set.  [srcDoc] is the name of React's prop; the property of
    the DOM element is [srcdoc].  The statement reads and writes an own
    property of the element object: the document of the frame is not
    loaded again and nothing can be observed. *)
Definition assignSrcDoc : Eff unit := ret tt.

(** [handleRecordVideo]. *)
Definition handleRecordVideo (b : Browser) (creation : option Creation) : Eff unit :=
  match creation with
  | None => ret tt
  | Some c =>
      try_catch
        (if negb (hasGetDisplayMedia b) then emit (Alert unsupportedMsg)
         else
           emit (Alert shareAudioMsg) ;;
           getDisplayMedia b ;;
           modifyUi (setIsRecording true) ;;
           newMediaRecorder b ;;
           installOnStop c ;;
           recorderStart b ;;
           when (iframeMounted b) assignSrcDoc)
        (fun err =>
           emit (ConsoleError errorMsg err) ;;
           modifyUi (setIsRecording false))
  end.

(** The body of the [onstop] closure. *)
Definition onstop (c : Creation) : Eff unit :=
  modifyUi (setIsRecording false) ;;
  emit (Download {| dl_name := videoFileName c; dl_type := js "video/webm" |}) ;;
  emit TracksStopped.

(** The capture ends (the user stops sharing): a recorder that is
    recording becomes inactive and its [stop] event runs the closure;
    a recorder that never started receives no event. *)
Definition captureEnds : Eff unit :=
  fun w =>
    match recorder w with
    | Some {| rec_state := Active; rec_onstop := h |} =>
        (setRecorder (Some {| rec_state := Inactive; rec_onstop := h |}) ;;
         match h with
         | Some c => onstop c
         | None => ret tt
         end) w
    | _ => (Ok tt, w)
    end.

(** The record button carries [disabled={isRecording}]: a click reaches
    the handler only while the flag is false. *)
Definition recordEnabled (st : State) : bool := negb (isRecording st).

(** A panel in which no recording was started yet. *)
Definition idle (st : State) : World :=
  {| ui := st; recorder := None; log := [] |}.

Definition isDownload (e : Event) : bool :=
  match e with Download _ => true | _ => false end.

Definition isGetDisplayMedia (e : Event) : bool :=
  match e with GetDisplayMedia => true | _ => false end.

Definition isConsoleError (e : Event) : bool :=
  match e with ConsoleError _ _ => true | _ => false end.

Definition isRecorderStarted (e : Event) : bool :=
  match e with RecorderStarted => true | _ => false end.

(** One of the failures of the error taxonomy occurs: no capture API, a
    rejected permission request, or a recorder that cannot be created
    or started. *)
Definition captureFails (b : Browser) : bool :=
  negb (hasGetDisplayMedia b)
  || match displayMediaRejects b with Some _ => true | None => false end
  || match newRecorderThrows b with Some _ => true | None => false end
  || match startThrows b with Some _ => true | None => false end.

End Recording.

(* ================================================================== *)
(** * Sample inputs *)
(* ================================================================== *)

Module Samples.
Import JS.

(** A response wrapped in one fence. *)
Definition fencedDocument : jsstring :=
  js "```html" ++ nl ++ js "<!DOCTYPE html><p>hi</p>" ++ nl ++ js "```".

(** A response that opens with two fences. *)
Definition doubleFence : jsstring := js "``````x".

Definition linearCreation : LivePreview.Creation :=
  {| LivePreview.name := js "Linear.app Demo!";
     LivePreview.html := js "<!DOCTYPE html>";
     LivePreview.originalImage := None |}.

(** A creation with a reference image. *)
Definition screenshotCreation : LivePreview.Creation :=
  {| LivePreview.name := js "Demo";
     LivePreview.html := js "<!DOCTYPE html>";
     LivePreview.originalImage := Some (js "data:image/png;base64,iVBORw0KGgo=") |}.

(** A creation whose reference image is the empty string. *)
Definition emptyImageCreation : LivePreview.Creation :=
  {| LivePreview.name := js "Demo";
     LivePreview.html := js "<!DOCTYPE html>";
     LivePreview.originalImage := Some [] |}.

(** A creation whose embedded tag is empty, and one whose tag holds a
    padded text. *)
Definition emptyTagCreation : LivePreview.Creation :=
  {| LivePreview.name := js "Demo";
     LivePreview.html := LivePreview.openTag ++ LivePreview.closeTag;
     LivePreview.originalImage := None |}.

Definition taggedCreation : LivePreview.Creation :=
  {| LivePreview.name := js "Demo";
     LivePreview.html :=
       js "<body>" ++ LivePreview.openTag ++ js " Show the dashboard. " ++
       LivePreview.closeTag ++ js "</body>";
     LivePreview.originalImage := None |}.

Definition panel (split recording : bool) : LivePreview.State :=
  {| LivePreview.loadingStep := 0; LivePreview.showSplitView := split;
     LivePreview.copiedPrompt := false; LivePreview.isRecording := recording |}.

(** A browser in which the user denies the capture prompt. *)
Definition denyingBrowser : Recording.Browser :=
  {| Recording.hasGetDisplayMedia := true;
     Recording.displayMediaRejects := Some (js "NotAllowedError");
     Recording.newRecorderThrows := None;
     Recording.startThrows := None;
     Recording.iframeMounted := true |}.

Definition png : InputArea.File :=
  {| InputArea.fileName := js "shot.png"; InputArea.fileType := js "image/png" |}.

Definition jpeg : InputArea.File :=
  {| InputArea.fileName := js "photo.jpg"; InputArea.fileType := js "image/jpeg" |}.

Definition pdf : InputArea.File :=
  {| InputArea.fileName := js "brief.pdf";
     InputArea.fileType := js "application/pdf" |}.

Definition input (u i : jsstring) (files : list InputArea.File) : InputArea.State :=
  {| InputArea.url := u; InputArea.instructions := i;
     InputArea.attachedFiles := files; InputArea.isDragging := false |}.

Definition idleProps : InputArea.Props :=
  {| InputArea.isGenerating := false; InputArea.disabled := false |}.

End Samples.

(* ================================================================== *)
(** * The generation call as a whole *)
(* ================================================================== *)

Module GenerationClient.
Import JS Gemini.

Definition GEMINI_MODEL : jsstring := js "gemini-3-pro-preview".

(** The argument of [ai.models.generateContent]; the temperature [0.7]
    is kept in tenths. *)
Record Request := {
  model : jsstring;
  contents : list Part;
  systemInstruction : jsstring;
  temperatureTenths : nat
}.

(** How the awaited call ends: it resolves with a response whose [text]
    may be undefined, or it rejects. *)
Inductive Response :=
| Resolved (text : option jsstring)
| Rejected (error : jsstring).

(** What [bringToLife] does to the outside. *)
Inductive ClientEvent :=
| GenerateContent (request : Request)
| LogError (msg err : jsstring).

Definition isGenerateContent (e : ClientEvent) : bool :=
  match e with GenerateContent _ => true | LogError _ _ => false end.

Definition generationErrorMsg : jsstring := js "Gemini Generation Error:".

Section Client.

(** The constant [SYSTEM_INSTRUCTION]; the code passes it on and never
    looks into it. *)
Variable SYSTEM_INSTRUCTION : jsstring.

(** The service, as the answer it gives to a request. *)
Variable generateContent : Request -> Response.

Definition requestOf (url instructions : jsstring)
    (images : option (list ImageAttachment)) : Request :=
  {| model := GEMINI_MODEL;
     contents := bringToLife_parts url instructions images;
     systemInstruction := SYSTEM_INSTRUCTION;
     temperatureTenths := 7 |}.

(** [bringToLife]: the promise's outcome and the events, in order.  The
    [catch] block logs and throws the error again. *)
Definition bringToLife (url instructions : jsstring)
    (images : option (list ImageAttachment))
  : Recording.Result jsstring * list ClientEvent :=
  let request := requestOf url instructions images in
  match generateContent request with
  | Resolved text =>
      (Recording.Ok (cleanResponse text), [GenerateContent request])
  | Rejected error =>
      (Recording.Thrown error,
       [GenerateContent request; LogError generationErrorMsg error])
  end.

End Client.

(** The text that the cleaning starts from. *)
Definition responseTextOrPlaceholder (text : option jsstring) : jsstring :=
  if truthy_opt text
  then match text with Some t => t | None => [] end
  else failedPlaceholder.

End GenerationClient.

(* ================================================================== *)
(** * The input area: keyboard, suggestions, drag state *)
(* ================================================================== *)

Module InputAreaControls.
Import JS InputArea.

Definition setUrl (v : jsstring) (st : State) : State :=
  {| url := v; instructions := instructions st;
     attachedFiles := attachedFiles st; isDragging := isDragging st |}.

(** The part of a keyboard event that [handleKeyDown] reads. *)
Record KeyEvent := {
  key : jsstring;
  shiftKey : bool
}.

Definition jsstring_eqb (a b : jsstring) : bool :=
  if list_eq_dec N.eq_dec a b then true else false.

(** [handleKeyDown]: [e.key === 'Enter' && !e.shiftKey] submits. *)
Definition handleKeyDown (e : KeyEvent) (st : State) : State * list Call :=
  if jsstring_eqb (key e) (js "Enter") && negb (shiftKey e)
  then handleSubmit st
  else (st, []).

(** [fillExample]. *)
Definition fillExample (exampleUrl examplePrompt : jsstring) (st : State) : State :=
  setInstructions examplePrompt (setUrl exampleUrl st).

(** The condition under which the suggestion chips are rendered:
    [!isGenerating && !url && !instructions && attachedFiles.length === 0],
    on the strings as they are. *)
Definition suggestionsVisible (props : Props) (st : State) : bool :=
  negb (isGenerating props)
  && negb (truthy (url st))
  && negb (truthy (instructions st))
  && (length (attachedFiles st) =? 0).

(** The three chips: the url and the prompt each one fills in. *)
Definition suggestions : list (jsstring * jsstring) :=
  [ (js "https://linear.app",
     js "Show the user creating a new issue, assigning it to 'Me', and then marking it as 'In Progress'.");
    (js "https://stripe.com",
     js "Demo the payments dashboard. Scroll down to show the revenue chart, hover over the bars to show tooltips, and click 'Export'.");
    (js "https://airbnb.com",
     js "Search for 'Kyoto', scroll through the listing results, and click on a 'Traditional Machiya' listing.") ].

(** [onDragOver] and [onDragLeave]. *)
Definition handleDragOver (st : State) : State := setIsDragging true st.
Definition handleDragLeave (st : State) : State := setIsDragging false st.

(** The user actions on the input area that do not submit. *)
Inductive Edit :=
| Paste (clipboardFiles : option (list File))
| PickFiles (files : option (list File))
| Drop (files : option (list File))
| Remove (index : nat)
| DragOver
| DragLeave.

Definition applyEdit (props : Props) (e : Edit) (st : State) : State :=
  match e with
  | Paste files => handlePaste props files st
  | PickFiles files => handleFileChange files st
  | Drop files => handleDrop props files st
  | Remove index => removeFile index st
  | DragOver => handleDragOver st
  | DragLeave => handleDragLeave st
  end.

End InputAreaControls.

(* ================================================================== *)
(** * The preview panel: loading steps and what is rendered *)
(* ================================================================== *)

Module PreviewRender.
Import JS LivePreview.

Definition setLoadingStep (v : nat) (st : State) : State :=
  {| loadingStep := v; showSplitView := showSplitView st;
     copiedPrompt := copiedPrompt st; isRecording := isRecording st |}.

(** The updater of the interval: [prev => (prev < 4 ? prev + 1 : prev)]. *)
Definition advanceStep (prev : nat) : nat :=
  if prev <? 4 then prev + 1 else prev.

(** The effect with dependency [[isLoading]] sets the step to 0 in both
    branches; while loading, an interval then fires [intervalTick]. *)
Definition loadingEffect (isLoading : bool) (st : State) : State :=
  if isLoading then setLoadingStep 0 st else setLoadingStep 0 st.

Definition intervalTick (st : State) : State :=
  setLoadingStep (advanceStep (loadingStep st)) st.

(** The panel [n] interval periods after the effect ran: the interval
    exists only while loading. *)
Definition loadingAfter (isLoading : bool) (n : nat) (st : State) : State :=
  Nat.iter (if isLoading then n else 0) intervalTick (loadingEffect isLoading st).

(** The rows of the loading view, in order; row [i] is rendered with
    [active = (loadingStep === i)] and [completed = (loadingStep > i)]. *)
Definition loadingRows : list jsstring :=
  [ js "Analyzing website layout";
    js "Extracting assets & UI elements";
    js "Animating user interactions";
    js "Synthesizing visual effects";
    js "Finalizing demo reel" ].

Definition rowActive (i : nat) (st : State) : bool := loadingStep st =? i.
Definition rowCompleted (i : nat) (st : State) : bool := i <? loadingStep st.

(** [LivePreviewProps], the callback apart. *)
Record Props := {
  creation : option Creation;
  isLoading : bool;
  isFocused : bool
}.

(** The title in the header. *)
Definition title (props : Props) : jsstring :=
  if isLoading props then js "Generating Assets..."
  else
    match creation props with
    | Some c => name c
    | None => js "Studio Mode"
    end.

(** [!isLoading && creation]: the export actions are rendered. *)
Definition actionsShown (props : Props) : bool :=
  negb (isLoading props)
  && match creation props with Some _ => true | None => false end.

(** The compare button sits among the actions, behind
    [creation.originalImage]. *)
Definition compareShown (props : Props) : bool :=
  actionsShown props && truthy_opt (originalImageOf (creation props)).

(** [creation?.html]. *)
Definition htmlOf (creation : option Creation) : option jsstring :=
  match creation with
  | Some c => Some (html c)
  | None => None
  end.

(** The main area: the loading view, the preview frame with its
    [srcDoc], or nothing. *)
Inductive MainArea :=
| LoadingView
| PreviewFrame (srcDoc : jsstring)
| NoContent.

Definition mainArea (props : Props) : MainArea :=
  if isLoading props then LoadingView
  else if truthy_opt (htmlOf (creation props))
       then match creation props with
            | Some c => PreviewFrame (html c)
            | None => NoContent
            end
       else NoContent.

(** The reference panel, inside the preview branch:
    [showSplitView && creation.originalImage]. *)
Definition referenceShown (props : Props) (st : State) : bool :=
  match mainArea props with
  | PreviewFrame _ =>
      showSplitView st && truthy_opt (originalImageOf (creation props))
  | _ => false
  end.

(** What the reference panel holds. *)
Inductive Reference :=
| PdfReference (dataUrl : jsstring)
| ImageReference (src : jsstring).

Definition referenceOf (image : jsstring) : Reference :=
  if startsWith (js "data:application/pdf") image
  then PdfReference image
  else ImageReference image.

End PreviewRender.

(* ================================================================== *)
(** * The PDF thumbnail *)
(* ================================================================== *)

Module PdfRenderer.
Import JS.

(** What the page and the PDF library do during [renderPdf]. *)
Record Env := {
  (** [window.pdfjsLib] is set *)
  libLoaded : bool;
  (** [Some e]: the loading task rejects with [e] *)
  getDocumentFails : option jsstring;
  (** [Some e]: [pdf.getPage(1)] rejects with [e] *)
  getPageFails : option jsstring;
  (** [canvasRef.current] is set *)
  canvasMounted : bool;
  (** [Some e]: the render task rejects with [e] *)
  renderFails : option jsstring
}.

(** The [useState] cells of the component. *)
Record State := {
  loading : bool;
  error : option jsstring
}.

Definition initial : State := {| loading := true; error := None |}.

Inductive Event :=
| PagePainted
| ConsoleError (msg err : jsstring).

Definition notInitializedMsg : jsstring := js "PDF library not initialized".
Definition cannotRenderMsg : jsstring := js "Could not render PDF preview.".
Definition renderErrorMsg : jsstring := js "Error rendering PDF:".

Definition setLoading (v : bool) (st : State) : State :=
  {| loading := v; error := error st |}.

Definition setError (v : option jsstring) (st : State) : State :=
  {| loading := loading st; error := v |}.

(** The [catch] block of [renderPdf]. *)
Definition onError (err : jsstring) (st : State) : State * list Event :=
  (setLoading false (setError (Some cannotRenderMsg) st),
   [ConsoleError renderErrorMsg err]).

(** [renderPdf], run by the effect with dependency [[dataUrl]]. *)
Definition renderPdf (env : Env) (st : State) : State * list Event :=
  if negb (libLoaded env)
  then (setLoading false (setError (Some notInitializedMsg) st), [])
  else
    let st := setLoading true st in
    match getDocumentFails env with
    | Some e => onError e st
    | None =>
        match getPageFails env with
        | Some e => onError e st
        | None =>
            if negb (canvasMounted env) then (st, [])
            else
              match renderFails env with
              | Some e => onError e st
              | None => (setLoading false st, [PagePainted])
              end
        end
    end.

(** What the component returns: the error box when [error] is set,
    otherwise the canvas, under a spinner while [loading]. *)
Inductive View :=
| ErrorBox (message : jsstring)
| Canvas (spinner : bool).

Definition view (st : State) : View :=
  match error st with
  | Some message => if truthy message then ErrorBox message else Canvas (loading st)
  | None => Canvas (loading st)
  end.

(** A step of [renderPdf] throws. *)
Definition stepThrows (env : Env) : bool :=
  match getDocumentFails env, getPageFails env with
  | Some _, _ => true
  | None, Some _ => true
  | None, None =>
      canvasMounted env
      && match renderFails env with Some _ => true | None => false end
  end.

End PdfRenderer.

(* ================================================================== *)
(** * More sample inputs *)
(* ================================================================== *)

Module MoreSamples.
Import JS.

(** A creation whose embedded tag holds two spaces. *)
Definition blankTagCreation : LivePreview.Creation :=
  {| LivePreview.name := js "Demo"; LivePreview.html := LivePreview.openTag ++ js "  " ++ LivePreview.closeTag;
     LivePreview.originalImage := None |}.

(** A browser that grants the capture and starts the recorder. *)
Definition grantingBrowser : Recording.Browser :=
  {| Recording.hasGetDisplayMedia := true; Recording.displayMediaRejects := None;
     Recording.newRecorderThrows := None; Recording.startThrows := None; Recording.iframeMounted := true |}.

End MoreSamples.

(* ================================================================== *)
(** * Facts about strings *)
(* ================================================================== *)

Module JSFacts.
Import JS.


Lemma strip_prefix_app p r : strip_prefix p (p ++ r) = Some r.
Proof.
  induction p as [|a p IH]; simpl; [reflexivity|].
  now rewrite N.eqb_refl.
Qed.

Lemma strip_prefix_Some p : forall s r,
  strip_prefix p s = Some r -> s = p ++ r.
Proof.
  induction p as [|a p IH]; intros s r H; simpl in *.
  - now inversion H.
  - destruct s as [|b s]; [discriminate|].
    destruct (N.eqb_spec a b) as [->|]; [|discriminate].
    now rewrite (IH _ _ H).
Qed.

Lemma strip_prefix_None p s :
  strip_prefix p s = None -> forall r, s <> p ++ r.
Proof.
  intros H r ->. now rewrite strip_prefix_app in H.
Qed.

Lemma startsWith_app p r : startsWith p (p ++ r) = true.
Proof. unfold startsWith. now rewrite strip_prefix_app. Qed.

Lemma startsWith_true p s :
  startsWith p s = true -> exists r, s = p ++ r.
Proof.
  unfold startsWith. destruct (strip_prefix p s) eqn:E; [|discriminate].
  intros _. eexists. eauto using strip_prefix_Some.
Qed.

(** A string that does not start with [p] does not start with any
    extension of [p]. *)
Lemma strip_prefix_longer p q s :
  startsWith p s = false -> strip_prefix (p ++ q) s = None.
Proof.
  intros H. destruct (strip_prefix (p ++ q) s) eqn:E; [|reflexivity].
  apply strip_prefix_Some in E. subst s.
  now rewrite <- app_assoc, startsWith_app in H.
Qed.

Lemma split_at_first_Some p : forall s pre post,
  split_at_first p s = Some (pre, post) -> s = pre ++ p ++ post.
Proof.
  induction s as [|c s IH]; intros pre post H; simpl in H.
  - destruct (strip_prefix p []) eqn:E; [|discriminate].
    inversion H; subst. now apply strip_prefix_Some in E.
  - destruct (strip_prefix p (c :: s)) eqn:E.
    + inversion H; subst. now apply strip_prefix_Some in E.
    + destruct (split_at_first p s) as [[pre' post']|] eqn:E'; [|discriminate].
      inversion H; subst. simpl. f_equal. now apply IH.
Qed.

Lemma split_at_first_eq p s :
  split_at_first p s =
  match strip_prefix p s with
  | Some r => Some ([], r)
  | None =>
      match s with
      | [] => None
      | c :: s' =>
          match split_at_first p s' with
          | Some (pre, post) => Some (c :: pre, post)
          | None => None
          end
      end
  end.
Proof. destruct s; reflexivity. Qed.

Lemma split_at_first_found p : forall a b,
  split_at_first p (a ++ p ++ b) <> None.
Proof.
  induction a as [|c a IH]; intros b; rewrite split_at_first_eq.
  - cbn [app]. rewrite strip_prefix_app. discriminate.
  - destruct (strip_prefix p ((c :: a) ++ p ++ b)); [discriminate|].
    cbn [app]. specialize (IH b).
    destruct (split_at_first p (a ++ p ++ b)) as [[? ?]|]; [discriminate|].
    congruence.
Qed.

Lemma includes_app p a b : includes p (a ++ p ++ b) = true.
Proof.
  unfold includes. pose proof (split_at_first_found p a b) as H.
  destruct (split_at_first p (a ++ p ++ b)); congruence.
Qed.

Lemma includes_true p s :
  includes p s = true -> exists a b, s = a ++ p ++ b.
Proof.
  unfold includes.
  destruct (split_at_first p s) as [[a b]|] eqn:E; [|discriminate].
  intros _. exists a, b. now apply split_at_first_Some.
Qed.

Lemma startsWith_includes p s : startsWith p s = true -> includes p s = true.
Proof.
  intros H. apply startsWith_true in H as [r ->].
  apply (includes_app p [] r).
Qed.

Lemma endsWith_includes p s : endsWith p s = true -> includes p s = true.
Proof.
  unfold endsWith. intros H. apply startsWith_true in H as [r H].
  apply (f_equal (@rev N)) in H.
  rewrite rev_involutive, rev_app_distr, rev_involutive in H. subst s.
  replace (rev r ++ p) with (rev r ++ p ++ []) by now rewrite app_nil_r.
  apply includes_app.
Qed.

Lemma skip_ws_length s : length (skip_ws s) <= length s.
Proof.
  induction s as [|c s IH]; simpl; [lia|].
  destruct (isWhiteSpace c); simpl; lia.
Qed.

Lemma skip_ws_all s : forallb isWhiteSpace s = true -> skip_ws s = [].
Proof.
  induction s as [|c s IH]; simpl; [reflexivity|].
  destruct (isWhiteSpace c); simpl; [assumption|discriminate].
Qed.

Lemma trim_all_ws s : forallb isWhiteSpace s = true -> trim s = [].
Proof.
  intros H. unfold trim. now rewrite (skip_ws_all s H).
Qed.

Lemma strip_prefix_length p s r :
  strip_prefix p s = Some r -> length s = length p + length r.
Proof.
  intros H. apply strip_prefix_Some in H. subst s. apply length_app.
Qed.

Lemma endsWith_true p s : endsWith p s = true -> exists r, s = r ++ p.
Proof.
  unfold endsWith. intros H. apply startsWith_true in H as [r H].
  apply (f_equal (@rev N)) in H.
  rewrite rev_involutive, rev_app_distr, rev_involutive in H.
  now exists (rev r).
Qed.

(** The first occurrence is the leftmost one. *)
Lemma split_at_first_leftmost p : forall s pre post,
  split_at_first p s = Some (pre, post) ->
  forall a b, s = a ++ p ++ b -> length pre <= length a.
Proof.
  induction s as [|c s IH]; intros pre post H a b Hs;
    rewrite split_at_first_eq in H.
  - destruct (strip_prefix p []); [|discriminate].
    inversion H; subst. simpl. lia.
  - destruct (strip_prefix p (c :: s)) eqn:E.
    + inversion H; subst. simpl. lia.
    + destruct (split_at_first p s) as [[pre' post']|] eqn:E'; [|discriminate].
      inversion H; subst pre post. destruct a as [|x a].
      * simpl in Hs. rewrite Hs, strip_prefix_app in E. discriminate.
      * simpl in Hs. inversion Hs; subst.
        simpl. apply le_n_S. eapply IH; eauto.
Qed.

Lemma split_at_first_pre_free p s pre post :
  p <> [] ->
  split_at_first p s = Some (pre, post) -> includes p pre = false.
Proof.
  intros Hp H. destruct (includes p pre) eqn:E; [|reflexivity].
  apply includes_true in E as (a & b & ->).
  pose proof (split_at_first_Some _ _ H) as Hs.
  assert (length ((a ++ p ++ b)) <= length a) as Hlen.
  { eapply split_at_first_leftmost; [exact H|].
    rewrite Hs. rewrite <- !app_assoc. reflexivity. }
  rewrite !length_app in Hlen. destruct p; [congruence|]. simpl in Hlen. lia.
Qed.

End JSFacts.

(* ================================================================== *)
(** * Properties of the generation client *)
(* ================================================================== *)

Module GeminiFacts.
Import JS JSFacts Gemini Samples.

(** ** The request *)

Lemma fold_push {A} (f : A -> Part) : forall l acc,
  fold_left (fun parts x => push parts (f x)) l acc = acc ++ map f l.
Proof.
  induction l as [|x l IH]; intros acc; simpl.
  - now rewrite app_nil_r.
  - rewrite IH. unfold push. now rewrite <- app_assoc.
Qed.

Lemma filter_inline_map l :
  filter isInlinePart (map inlinePart l) = map inlinePart l.
Proof. induction l; simpl; congruence. Qed.

Lemma filter_text_map l : filter isTextPart (map inlinePart l) = [].
Proof. induction l; simpl; congruence. Qed.

Lemma finalPrompt_lines url instructions n :
  exists head tail,
    finalPrompt url instructions n =
    head ++ urlLine url ++ instructionsLine instructions ++ countLine n ++ tail.
Proof. exists promptHead, promptTask. reflexivity. Qed.

Lemma finalPrompt_includes url instructions n :
  includes (urlLine url) (finalPrompt url instructions n) = true
  /\ includes (instructionsLine instructions) (finalPrompt url instructions n) = true
  /\ includes (countLine n) (finalPrompt url instructions n) = true.
Proof.
  destruct (finalPrompt_lines url instructions n) as (hd & tl & ->).
  split; [|split].
  - apply includes_app.
  - rewrite (app_assoc hd). apply includes_app.
  - rewrite (app_assoc (urlLine url)), (app_assoc hd). apply includes_app.
Qed.

(** The prompt, written out: the fixed text of the template literal
    around the url, the instructions and the decimal count. *)
Lemma finalPrompt_text url instructions n :
  finalPrompt url instructions n =
  nl ++
  js "  *** DESKTOP SCREENCAST GENERATION REQUEST ***" ++ nl ++
  js "  " ++ nl ++
  js "  TARGET URL: " ++ dq ++ url ++ dq ++ nl ++
  js "  USER INSTRUCTIONS/FLOW: " ++ dq ++ instructions ++ dq ++ nl ++
  js "  ATTACHED REFERENCE IMAGES: " ++ decimal n ++ nl ++
  js "  " ++ nl ++
  js "  TASK:" ++ nl ++
  js "  1. ANALYZE the URL and any attached images to determine the brand, color palette, and layout." ++ nl ++
  js "  2. GENERATE a high-fidelity HTML/CSS/JS simulation of this website inside a browser frame." ++ nl ++
  js "  3. ANIMATE the cursor and scroll behavior to match the " ++ dq ++
      js "User Instructions" ++ dq ++ js "." ++ nl ++
  js "  4. IF IMAGES are provided, incorporate them intelligently (e.g., as the main page content or as feature sections)." ++ nl ++
  js "  5. ADD a Loom-style presenter bubble narrating the flow described." ++ nl ++
  js "  6. IMPLEMENT Web Speech API for real-time voice narration of the script." ++ nl ++
  js "  " ++ nl ++
  js "  GENERATE THE FULL HTML/JS/CSS NOW." ++ nl ++
  js "  ".
Proof.
  unfold finalPrompt, promptHead, urlLine, instructionsLine, countLine,
    promptTask.
  repeat rewrite <- app_assoc. reflexivity.
Qed.

Lemma includes_intro p s a b : s = a ++ p ++ b -> includes p s = true.
Proof. intros ->. apply includes_app. Qed.

(** The url and the instructions stand between double quotes after
    their labels, the count after its label, each up to the end of the
    line. *)
Lemma finalPrompt_fields url instructions n :
  includes (js "TARGET URL: " ++ dq ++ url ++ dq ++ nl)
    (finalPrompt url instructions n) = true
  /\ includes (js "USER INSTRUCTIONS/FLOW: " ++ dq ++ instructions ++ dq ++ nl)
       (finalPrompt url instructions n) = true
  /\ includes (js "ATTACHED REFERENCE IMAGES: " ++ decimal n ++ nl)
       (finalPrompt url instructions n) = true
  /\ includes url (finalPrompt url instructions n) = true
  /\ includes instructions (finalPrompt url instructions n) = true
  /\ includes (decimal n) (finalPrompt url instructions n) = true.
Proof.
  unfold finalPrompt, urlLine, instructionsLine, countLine.
  repeat split.
  - eapply (@includes_intro _ _ (promptHead ++ js "  ") _).
    repeat rewrite <- app_assoc. reflexivity.
  - eapply (@includes_intro _ _ (promptHead ++
              (js "  TARGET URL: " ++ dq ++ url ++ dq ++ nl) ++ js "  ") _).
    repeat rewrite <- app_assoc. reflexivity.
  - eapply (@includes_intro _ _ (promptHead ++
              (js "  TARGET URL: " ++ dq ++ url ++ dq ++ nl) ++
              (js "  USER INSTRUCTIONS/FLOW: " ++ dq ++ instructions ++ dq ++ nl)
              ++ js "  ") _).
    repeat rewrite <- app_assoc. reflexivity.
  - eapply (@includes_intro _ _ (promptHead ++ js "  TARGET URL: " ++ dq) _).
    repeat rewrite <- app_assoc. reflexivity.
  - eapply (@includes_intro _ _ (promptHead ++
              (js "  TARGET URL: " ++ dq ++ url ++ dq ++ nl) ++
              js "  USER INSTRUCTIONS/FLOW: " ++ dq) _).
    repeat rewrite <- app_assoc. reflexivity.
  - eapply (@includes_intro _ _ (promptHead ++
              (js "  TARGET URL: " ++ dq ++ url ++ dq ++ nl) ++
              (js "  USER INSTRUCTIONS/FLOW: " ++ dq ++ instructions ++ dq ++ nl)
              ++ js "  ATTACHED REFERENCE IMAGES: ") _).
    repeat rewrite <- app_assoc. reflexivity.
Qed.

(** ** The count can be read back *)

Lemma digit_step k c s acc :
  digitValue c = Some k ->
  parseDigits (c :: s) acc = parseDigits s (10 * acc + k).
Proof. intros H. cbn [parseDigits]. now rewrite H. Qed.

Lemma parseDigits_of_uint : forall d acc,
  parseDigits (js (NilEmpty.string_of_uint d)) acc = Some (Nat.of_uint_acc d acc).
Proof.
  induction d; intros acc; cbn [NilEmpty.string_of_uint js Nat.of_uint_acc];
    [reflexivity|..];
    (erewrite digit_step by reflexivity); rewrite IHd; f_equal; f_equal;
    rewrite Nat.tail_mul_spec;
    match goal with |- context [N.to_nat ?x] =>
      let v := eval vm_compute in (N.to_nat x) in change (N.to_nat x) with v end;
    lia.
Qed.

Lemma parseCount_decimal n : parseCount (decimal n) = Some n.
Proof.
  unfold decimal. rewrite <- (Unsigned.of_to n) at 2.
  unfold Nat.of_uint. destruct (Nat.to_uint n) as [|d|d|d|d|d|d|d|d|d|d];
    [reflexivity|..];
    cbn [NilZero.string_of_uint];
    match goal with
    | |- parseCount (js (NilEmpty.string_of_uint ?x)) = _ =>
        rewrite <- (parseDigits_of_uint x 0)
    end; reflexivity.
Qed.

(** C1. The request assembled by [bringToLife] is one text part, the
    prompt, followed by one inline part per attachment (its base64 data
    and its MIME type), in the order of the attachment list.  The
    prompt is the fixed text of the template with the url between
    double quotes after [TARGET URL: ], the instructions between double
    quotes after [USER INSTRUCTIONS/FLOW: ] and, after
    [ATTACHED REFERENCE IMAGES: ], the number of attachments in decimal
    digits, which read back give that number.  With two attachments
    there are exactly two inline parts and the prompt reports the
    count 2. *)
Theorem bringToLife_request :
  (forall url instructions images,
     let imgs := match images with Some l => l | None => [] end in
     let prompt := finalPrompt url instructions (length imgs) in
     let parts := bringToLife_parts url instructions images in
     parts = TextPart prompt :: map inlinePart imgs
     /\ filter isTextPart parts = [TextPart prompt]
     /\ filter isInlinePart parts = map inlinePart imgs
     /\ length (filter isInlinePart parts) = length imgs
     /\ (forall i img, nth_error imgs i = Some img ->
           nth_error parts (S i) = Some (InlineDataPart (base64 img) (mimeType img)))
     /\ includes (urlLine url) prompt = true
     /\ includes (instructionsLine instructions) prompt = true
     /\ includes (countLine (length imgs)) prompt = true
     /\ prompt =
          nl ++
          js "  *** DESKTOP SCREENCAST GENERATION REQUEST ***" ++ nl ++
          js "  " ++ nl ++
          js "  TARGET URL: " ++ dq ++ url ++ dq ++ nl ++
          js "  USER INSTRUCTIONS/FLOW: " ++ dq ++ instructions ++ dq ++ nl ++
          js "  ATTACHED REFERENCE IMAGES: " ++ decimal (length imgs) ++ nl ++
          js "  " ++ nl ++
          js "  TASK:" ++ nl ++
          js "  1. ANALYZE the URL and any attached images to determine the brand, color palette, and layout." ++ nl ++
          js "  2. GENERATE a high-fidelity HTML/CSS/JS simulation of this website inside a browser frame." ++ nl ++
          js "  3. ANIMATE the cursor and scroll behavior to match the " ++ dq ++
              js "User Instructions" ++ dq ++ js "." ++ nl ++
          js "  4. IF IMAGES are provided, incorporate them intelligently (e.g., as the main page content or as feature sections)." ++ nl ++
          js "  5. ADD a Loom-style presenter bubble narrating the flow described." ++ nl ++
          js "  6. IMPLEMENT Web Speech API for real-time voice narration of the script." ++ nl ++
          js "  " ++ nl ++
          js "  GENERATE THE FULL HTML/JS/CSS NOW." ++ nl ++
          js "  "
     /\ includes (js "TARGET URL: " ++ dq ++ url ++ dq ++ nl) prompt = true
     /\ includes (js "USER INSTRUCTIONS/FLOW: " ++ dq ++ instructions ++ dq ++ nl)
          prompt = true
     /\ includes (js "ATTACHED REFERENCE IMAGES: " ++ decimal (length imgs) ++ nl)
          prompt = true
     /\ includes url prompt = true
     /\ includes instructions prompt = true
     /\ includes (decimal (length imgs)) prompt = true
     /\ parseCount (decimal (length imgs)) = Some (length imgs))
  /\ (forall url instructions a b,
        bringToLife_parts url instructions (Some [a; b]) =
          [TextPart (finalPrompt url instructions 2);
           InlineDataPart (base64 a) (mimeType a);
           InlineDataPart (base64 b) (mimeType b)]
        /\ countLine 2 = js "  ATTACHED REFERENCE IMAGES: 2" ++ nl
        /\ includes (countLine 2) (finalPrompt url instructions 2) = true).
Proof.
  split.
  - intros url instructions images imgs prompt parts.
    assert (Hparts : parts = TextPart prompt :: map inlinePart imgs).
    { subst parts. unfold bringToLife_parts. fold imgs. rewrite fold_push.
      reflexivity. }
    rewrite Hparts. split; [reflexivity|]. simpl.
    rewrite filter_text_map, filter_inline_map, length_map.
    split; [reflexivity|]. split; [reflexivity|]. split; [reflexivity|].
    split.
    { intros i img Hi. rewrite nth_error_map, Hi. reflexivity. }
    destruct (finalPrompt_includes url instructions (length imgs))
      as (I1 & I2 & I3).
    destruct (finalPrompt_fields url instructions (length imgs))
      as (F1 & F2 & F3 & F4 & F5 & F6).
    fold prompt in I1, I2, I3, F1, F2, F3, F4, F5, F6.
    repeat (split; [assumption|]).
    split; [apply finalPrompt_text|].
    repeat (split; [assumption|]).
    apply parseCount_decimal.
  - intros url instructions a b. repeat split.
    apply finalPrompt_includes.
Qed.

Example prompt_counts_twelve :
  decimal 12 = js "12" /\ decimal 0 = js "0"
  /\ parseCount (js "12") = Some 12 /\ parseCount (js "1x") = None.
Proof. repeat split. Qed.

(** ** Stripping the fences *)

Lemma replace_fence_html_le t : length (replace_fence_html t) <= length t.
Proof.
  unfold replace_fence_html. destruct (strip_prefix fence_html t) as [r|] eqn:E; [|lia].
  apply strip_prefix_length in E. pose proof (skip_ws_length r). lia.
Qed.

Lemma replace_fence_le t : length (replace_fence t) <= length t.
Proof.
  unfold replace_fence. destruct (strip_prefix fence t) as [r|] eqn:E; [|lia].
  apply strip_prefix_length in E. pose proof (skip_ws_length r). lia.
Qed.

Lemma replace_fence_end_le t : length (replace_fence_end t) <= length t.
Proof.
  unfold replace_fence_end. destruct (endsWith fence t); [|lia].
  rewrite length_firstn. lia.
Qed.

Lemma replace_fence_lt t :
  startsWith fence t = true -> length (replace_fence t) < length t.
Proof.
  unfold startsWith, replace_fence.
  destruct (strip_prefix fence t) as [r|] eqn:E; [|discriminate]. intros _.
  apply strip_prefix_length in E. pose proof (skip_ws_length r).
  change (length fence) with 3 in E. lia.
Qed.

Lemma replace_fence_end_lt t :
  endsWith fence t = true -> length (replace_fence_end t) < length t.
Proof.
  intros H. unfold replace_fence_end. rewrite H.
  apply endsWith_true in H as [r ->].
  rewrite length_firstn, length_app. change (length fence) with 3. lia.
Qed.

Lemma no_fence_no_fence_html t :
  startsWith fence t = false -> replace_fence_html t = t.
Proof.
  intros H. unfold replace_fence_html.
  change fence_html with (fence ++ js "html").
  now rewrite (strip_prefix_longer fence (js "html") t H).
Qed.

Lemma no_fence_replace_fence t :
  startsWith fence t = false -> replace_fence t = t.
Proof.
  unfold startsWith, replace_fence.
  destruct (strip_prefix fence t); [discriminate|reflexivity].
Qed.

Example stripFences_single_fence :
  stripFences fencedDocument = js "<!DOCTYPE html><p>hi</p>" ++ nl.
Proof. reflexivity. Qed.

Example cleanResponse_missing_text :
  cleanResponse None = failedPlaceholder
  /\ cleanResponse (Some []) = failedPlaceholder.
Proof. split; reflexivity. Qed.

(** The texts that the chain leaves alone. *)
Lemma stripFences_fixed t :
  startsWith fence t = false -> endsWith fence t = false ->
  stripFences t = t.
Proof.
  intros Hs He. unfold stripFences.
  rewrite (no_fence_no_fence_html t Hs), (no_fence_replace_fence t Hs).
  unfold replace_fence_end. now rewrite He.
Qed.

(** Every other text gets shorter. *)
Lemma stripFences_shrinks t :
  startsWith fence t = true \/ endsWith fence t = true ->
  length (stripFences t) < length t.
Proof.
  unfold stripFences. destruct (startsWith fence t) eqn:Hs.
  - intros _.
    pose proof (replace_fence_end_le (replace_fence (replace_fence_html t))) as H3.
    pose proof (replace_fence_le (replace_fence_html t)) as H2.
    unfold replace_fence_html in *.
    destruct (strip_prefix fence_html t) as [r|] eqn:E.
    + apply strip_prefix_length in E. pose proof (skip_ws_length r).
      change (length fence_html) with 7 in E. lia.
    + pose proof (replace_fence_lt t Hs). lia.
  - intros [H|He]; [discriminate|].
    rewrite (no_fence_no_fence_html t Hs), (no_fence_replace_fence t Hs).
    now apply replace_fence_end_lt.
Qed.

Lemma stripFences_fixed_iff t :
  stripFences t = t <->
  startsWith fence t = false /\ endsWith fence t = false.
Proof.
  split.
  - intros H.
    destruct (startsWith fence t) eqn:Hs, (endsWith fence t) eqn:He;
      try (pose proof (stripFences_shrinks t) as L; rewrite H in L;
           rewrite ?Hs, ?He in L; exfalso;
           assert (length t < length t) by (apply L; auto); lia).
    auto.
  - intros [Hs He]. now apply stripFences_fixed.
Qed.

(** C2, as the specification states it, fails: a text that opens with two
    fences keeps one of them after the first pass and loses it in the
    second. *)
Lemma stripFences_twice_differs :
  stripFences doubleFence = js "```x"
  /\ stripFences (stripFences doubleFence) = js "x"
  /\ stripFences (stripFences doubleFence) <> stripFences doubleFence.
Proof. repeat split. vm_compute. discriminate. Qed.

(** C2, amended. Stripping twice equals stripping once exactly when the
    text stripped once neither begins nor ends with a fence, which is
    the case for a response wrapped in a single fence; and a text that
    contains no fence is returned unchanged. *)
Theorem stripFences_idempotent_when : forall s,
  (stripFences (stripFences s) = stripFences s <->
     startsWith fence (stripFences s) = false
     /\ endsWith fence (stripFences s) = false)
  /\ (includes fence s = false -> stripFences s = s).
Proof.
  intros s. split.
  - apply stripFences_fixed_iff.
  - intros H. apply stripFences_fixed.
    + destruct (startsWith fence s) eqn:E; [|reflexivity].
      apply startsWith_includes in E. congruence.
    + destruct (endsWith fence s) eqn:E; [|reflexivity].
      apply endsWith_includes in E. congruence.
Qed.

Lemma stripFences_idempotent_when_witness :
  stripFences (stripFences fencedDocument) = stripFences fencedDocument
  /\ stripFences (js "<!DOCTYPE html>") = js "<!DOCTYPE html>".
Proof.
  split.
  - apply (proj1 (stripFences_idempotent_when fencedDocument)).
    split; reflexivity.
  - apply (proj2 (stripFences_idempotent_when (js "<!DOCTYPE html>"))).
    reflexivity.
Defined.

End GeminiFacts.

(* ================================================================== *)
(** * Properties of the input area *)
(* ================================================================== *)

Module InputAreaFacts.
Import JS JSFacts InputArea Samples.

Lemma filter_isImage_Forall files :
  Forall (fun f => isImage f = true) (filter isImage files).
Proof.
  apply Forall_forall. intros f Hf. now apply filter_In in Hf.
Qed.

Lemma guard_blocked props : disabled props || isGenerating props = true ->
  forall files st,
    handlePaste props files st = st
    /\ attachedFiles (handleDrop props files st) = attachedFiles st.
Proof.
  intros H files st. unfold handlePaste, handleDrop. now rewrite H.
Qed.

Lemma handlePaste_open props files st :
  disabled props || isGenerating props = false ->
  attachedFiles (handlePaste props files st) =
  attachedFiles st ++ filter isImage (offered files).
Proof.
  intros H. unfold handlePaste. rewrite H.
  destruct files as [[|f files]|]; simpl offered;
    try (simpl; now rewrite app_nil_r).
  destruct (filter isImage (f :: files)); simpl;
    [now rewrite app_nil_r|reflexivity].
Qed.

Lemma handleDrop_open props files st :
  disabled props || isGenerating props = false ->
  attachedFiles (handleDrop props files st) =
  attachedFiles st ++ filter isImage (offered files).
Proof.
  intros H. unfold handleDrop. rewrite H.
  destruct files as [[|f files]|]; simpl; try now rewrite app_nil_r.
  reflexivity.
Qed.

Lemma handleFileChange_all files st :
  attachedFiles (handleFileChange files st) = attachedFiles st ++ offered files.
Proof.
  destruct files as [[|f files]|]; simpl; try now rewrite app_nil_r.
  reflexivity.
Qed.

Example paste_keeps_images_only :
  attachedFiles (handlePaste idleProps (Some [jpeg; pdf; png]) (input [] [] [png]))
  = [png; jpeg; png].
Proof. reflexivity. Qed.

Example drop_keeps_images_only :
  attachedFiles (handleDrop idleProps (Some [pdf; jpeg]) (input [] [] [png]))
  = [png; jpeg].
Proof. reflexivity. Qed.

Example file_input_keeps_everything :
  attachedFiles (handleFileChange (Some [pdf; jpeg]) (input [] [] [png]))
  = [png; pdf; jpeg].
Proof. reflexivity. Qed.

Example paste_while_generating :
  handlePaste {| isGenerating := true; disabled := false |}
    (Some [jpeg]) (input [] [] [png]) = input [] [] [png].
Proof. reflexivity. Qed.

Lemma isImage_iff f :
  isImage f = true <-> exists rest, fileType f = js "image/" ++ rest.
Proof.
  unfold isImage. split.
  - apply startsWith_true.
  - intros [rest ->]. apply startsWith_app.
Qed.

Lemma not_image f :
  (forall rest, fileType f <> js "image/" ++ rest) -> isImage f = false.
Proof.
  intros H. destruct (isImage f) eqn:E; [|reflexivity].
  apply isImage_iff in E as [rest E]. now apply H in E.
Qed.

(** C7. Files that arrive by paste or by drop are appended to the end of
    the attachment list only if their [type] starts with [image/] (all
    of those, in order, unless the component is disabled or generating,
    when nothing is appended); files that arrive through the file input
    are all appended to the end, whatever their type.  So a file whose
    type does not start with [image/] is left out by paste and by drop
    and taken by the file input. *)
Theorem attachments_filtered_by_source :
  (forall props files st,
     exists accepted,
       attachedFiles (handlePaste props files st) = attachedFiles st ++ accepted
       /\ Forall (fun f => isImage f = true) accepted
       /\ accepted =
          if disabled props || isGenerating props then []
          else filter isImage (offered files))
  /\ (forall props files st,
        exists accepted,
          attachedFiles (handleDrop props files st) = attachedFiles st ++ accepted
          /\ Forall (fun f => isImage f = true) accepted
          /\ accepted =
             if disabled props || isGenerating props then []
             else filter isImage (offered files))
  /\ (forall files st,
        attachedFiles (handleFileChange files st) =
        attachedFiles st ++ offered files)
  /\ (forall f,
        isImage f = true <-> exists rest, fileType f = js "image/" ++ rest)
  /\ (forall props files st f,
        In f (attachedFiles (handlePaste props files st))
        \/ In f (attachedFiles (handleDrop props files st)) ->
        In f (attachedFiles st)
        \/ (In f (offered files)
            /\ exists rest, fileType f = js "image/" ++ rest))
  /\ (forall props files st f,
        disabled props || isGenerating props = false ->
        In f (offered files) ->
        (exists rest, fileType f = js "image/" ++ rest) ->
        In f (attachedFiles (handlePaste props files st))
        /\ In f (attachedFiles (handleDrop props files st)))
  /\ (forall props f st,
        (forall rest, fileType f <> js "image/" ++ rest) ->
        attachedFiles (handlePaste props (Some [f]) st) = attachedFiles st
        /\ attachedFiles (handleDrop props (Some [f]) st) = attachedFiles st
        /\ attachedFiles (handleFileChange (Some [f]) st) = attachedFiles st ++ [f]).
Proof.
  assert (P : forall props files st,
     exists accepted,
       attachedFiles (handlePaste props files st) = attachedFiles st ++ accepted
       /\ Forall (fun f => isImage f = true) accepted
       /\ accepted =
          if disabled props || isGenerating props then []
          else filter isImage (offered files)).
  { intros props files st.
    destruct (disabled props || isGenerating props) eqn:G.
    + exists []. destruct (guard_blocked props G files st) as [-> _].
      rewrite app_nil_r. auto.
    + exists (filter isImage (offered files)).
      rewrite (handlePaste_open props files st G).
      auto using filter_isImage_Forall. }
  assert (D : forall props files st,
     exists accepted,
       attachedFiles (handleDrop props files st) = attachedFiles st ++ accepted
       /\ Forall (fun f => isImage f = true) accepted
       /\ accepted =
          if disabled props || isGenerating props then []
          else filter isImage (offered files)).
  { intros props files st.
    destruct (disabled props || isGenerating props) eqn:G.
    + exists []. destruct (guard_blocked props G files st) as [_ ->].
      rewrite app_nil_r. auto.
    + exists (filter isImage (offered files)).
      rewrite (handleDrop_open props files st G).
      auto using filter_isImage_Forall. }
  split; [exact P|]. split; [exact D|].
  split; [apply handleFileChange_all|]. split; [apply isImage_iff|].
  split; [|split].
  - intros props files st f [H|H];
      [destruct (P props files st) as (acc & E & _ & Ha)
      |destruct (D props files st) as (acc & E & _ & Ha)];
      rewrite E in H; apply in_app_or in H as [H|H]; auto; right;
      rewrite Ha in H;
      (destruct (disabled props || isGenerating props); [destruct H|]);
      apply filter_In in H as [H1 H2]; split; auto; now apply isImage_iff.
  - intros props files st f G Hin Hty. apply isImage_iff in Hty.
    rewrite (handlePaste_open props files st G),
            (handleDrop_open props files st G).
    split; apply in_or_app; right; apply filter_In; auto.
  - intros props f st Hty. apply not_image in Hty.
    split; [|split].
    + destruct (P props (Some [f]) st) as (acc & E & _ & Ha). rewrite E, Ha.
      cbn [offered filter]. rewrite Hty.
      destruct (disabled props || isGenerating props); apply app_nil_r.
    + destruct (D props (Some [f]) st) as (acc & E & _ & Ha). rewrite E, Ha.
      cbn [offered filter]. rewrite Hty.
      destruct (disabled props || isGenerating props); apply app_nil_r.
    + apply handleFileChange_all.
Qed.

(** ** Submitting *)

Lemma nothingToSubmit_iff st :
  nothingToSubmit st = true <->
  trim (url st) = [] /\ trim (instructions st) = [] /\ attachedFiles st = [].
Proof.
  unfold nothingToSubmit.
  destruct (trim (url st)), (trim (instructions st)), (attachedFiles st);
    simpl; split; intros H; try discriminate; auto;
    destruct H as (? & ? & ?); discriminate.
Qed.

Lemma handleSubmit_rejects st :
  nothingToSubmit st = true -> handleSubmit st = (st, []).
Proof. intros H. unfold handleSubmit. now rewrite H. Qed.

Lemma handleSubmit_proceeds st :
  nothingToSubmit st = false ->
  handleSubmit st =
  ({| url := url st; instructions := []; attachedFiles := [];
      isDragging := isDragging st |},
   [OnGenerate (url st) (instructions st) (attachedFiles st)]).
Proof. intros H. unfold handleSubmit. now rewrite H. Qed.

Lemma handleSubmit_calls st :
  snd (handleSubmit st) = [] <-> nothingToSubmit st = true.
Proof.
  unfold handleSubmit. destruct (nothingToSubmit st); simpl; split;
    intros H; (reflexivity || discriminate).
Qed.

(** C5. With an empty url, empty instructions and no attachment,
    [handleSubmit] returns without calling [onGenerate] and without
    touching the state, and the submit button is rendered disabled; the
    button's attribute is this very condition, or-ed with [isGenerating],
    so that outside a generation the button is disabled exactly when
    [handleSubmit] would reject. *)
Theorem empty_submission_rejected :
  (forall props st,
     url st = [] -> instructions st = [] -> attachedFiles st = [] ->
     handleSubmit st = (st, []) /\ submitDisabled props st = true)
  /\ (forall props st,
        submitDisabled props st = true <->
        snd (handleSubmit st) = [] \/ isGenerating props = true).
Proof.
  split.
  - intros props st Hu Hi Hf.
    assert (G : nothingToSubmit st = true).
    { apply nothingToSubmit_iff. rewrite Hu, Hi, Hf. auto. }
    split; [now apply handleSubmit_rejects|].
    unfold submitDisabled. now rewrite G.
  - intros props st. unfold submitDisabled.
    rewrite handleSubmit_calls, orb_true_iff. reflexivity.
Qed.

(** C9. A submit that passes the guard calls [onGenerate] once and
    leaves the attachment list empty, the instructions empty and the url
    as it was. *)
Theorem submit_clears_all_but_url : forall st,
  nothingToSubmit st = false ->
  snd (handleSubmit st) =
    [OnGenerate (url st) (instructions st) (attachedFiles st)]
  /\ attachedFiles (fst (handleSubmit st)) = []
  /\ instructions (fst (handleSubmit st)) = []
  /\ url (fst (handleSubmit st)) = url st.
Proof.
  intros st H. rewrite (handleSubmit_proceeds st H). simpl. auto.
Qed.

(** C10. The guard looks at the trimmed strings: a url and instructions
    made of whitespace only, with no attachment, are rejected; whenever
    the submit proceeds, and it does as soon as there is an attachment,
    [onGenerate] receives the url and the instructions untrimmed. *)
Theorem guard_trims_but_call_does_not :
  (forall st,
     forallb isWhiteSpace (url st) = true ->
     forallb isWhiteSpace (instructions st) = true ->
     attachedFiles st = [] ->
     handleSubmit st = (st, []))
  /\ (forall st,
        snd (handleSubmit st) <> [] ->
        snd (handleSubmit st) =
          [OnGenerate (url st) (instructions st) (attachedFiles st)])
  /\ (forall st,
        attachedFiles st <> [] ->
        snd (handleSubmit st) =
          [OnGenerate (url st) (instructions st) (attachedFiles st)]).
Proof.
  split; [|split].
  - intros st Hu Hi Hf. apply handleSubmit_rejects, nothingToSubmit_iff.
    auto using trim_all_ws.
  - intros st H. destruct (nothingToSubmit st) eqn:G.
    + apply handleSubmit_calls in G. contradiction.
    + now rewrite (handleSubmit_proceeds st G).
  - intros st H. destruct (nothingToSubmit st) eqn:G.
    + apply nothingToSubmit_iff in G as (_ & _ & G). contradiction.
    + now rewrite (handleSubmit_proceeds st G).
Qed.

Lemma empty_submission_rejected_witness :
  handleSubmit (input [] [] []) = (input [] [] [], [])
  /\ submitDisabled idleProps (input [] [] []) = true.
Proof.
  apply (proj1 empty_submission_rejected idleProps (input [] [] []));
    reflexivity.
Defined.

Lemma submit_clears_all_but_url_witness :
  let st := input (js "https://linear.app") (js "show issue creation") [png] in
  snd (handleSubmit st) =
    [OnGenerate (js "https://linear.app") (js "show issue creation") [png]]
  /\ attachedFiles (fst (handleSubmit st)) = []
  /\ instructions (fst (handleSubmit st)) = []
  /\ url (fst (handleSubmit st)) = js "https://linear.app".
Proof.
  apply (submit_clears_all_but_url
           (input (js "https://linear.app") (js "show issue creation") [png])).
  reflexivity.
Defined.

Lemma guard_trims_but_call_does_not_witness :
  handleSubmit (input (js "  ") (js " " ++ nl) []) =
    (input (js "  ") (js " " ++ nl) [], [])
  /\ snd (handleSubmit (input (js "  ") (js " " ++ nl) [png])) =
       [OnGenerate (js "  ") (js " " ++ nl) [png]].
Proof.
  split.
  - apply (proj1 guard_trims_but_call_does_not
             (input (js "  ") (js " " ++ nl) [])); reflexivity.
  - apply (proj2 (proj2 guard_trims_but_call_does_not)
             (input (js "  ") (js " " ++ nl) [png])). discriminate.
Defined.

End InputAreaFacts.

(* ================================================================== *)
(** * Properties of the preview panel *)
(* ================================================================== *)

Module LivePreviewFacts.
Import JS JSFacts LivePreview Samples.

(** ** Split view *)

Lemma truthy_iff s : truthy s = true <-> s <> [].
Proof. destruct s; simpl; split; congruence. Qed.

(** Outside the data model: a reference image that is the empty
    string is falsy in the test of the effect. *)
Example splitView_off_for_empty_image :
  originalImage emptyImageCreation = Some []
  /\ originalImage emptyImageCreation <> None
  /\ showSplitView (splitViewEffect (Some emptyImageCreation) (panel true false))
     = false.
Proof. split; [reflexivity|split; [discriminate|reflexivity]]. Qed.

(** The flag after the effect, for any creation at all: on for a
    reference image that is a non-empty string, off otherwise, whatever
    it was before; the other cells of the panel keep their values. *)
Lemma splitView_follows_image : forall creation st,
  (showSplitView (splitViewEffect creation st) = true <->
     exists c img,
       creation = Some c /\ originalImage c = Some img /\ img <> [])
  /\ (showSplitView (splitViewEffect creation st) = false <->
        creation = None
        \/ exists c, creation = Some c
             /\ (originalImage c = None \/ originalImage c = Some []))
  /\ loadingStep (splitViewEffect creation st) = loadingStep st
  /\ copiedPrompt (splitViewEffect creation st) = copiedPrompt st
  /\ isRecording (splitViewEffect creation st) = isRecording st.
Proof.
  intros creation st. unfold splitViewEffect.
  destruct creation as [c|]; simpl.
  - destruct (originalImage c) as [[|u img]|] eqn:E; simpl.
    + repeat split; try discriminate; eauto.
      intros (c' & img & Hc & Hi & Hn). inversion Hc; subst. congruence.
    + repeat split; try discriminate; eauto.
      * intros _. exists c, (u :: img). repeat split; auto. discriminate.
      * intros [H|(c' & Hc & [H|H])]; try discriminate;
          inversion Hc; subst; congruence.
    + repeat split; try discriminate; eauto.
      intros (c' & img & Hc & Hi & Hn). inversion Hc; subst. congruence.
  - repeat split; try discriminate; auto.
    intros (c' & img & Hc & _). discriminate.
Qed.

Lemma dataUrl_not_empty image : isDataUrl image = true -> image <> [].
Proof. intros H ->. discriminate. Qed.

(** C3. When the active creation changes, the split view is recomputed
    from that creation alone: for a creation of the data model (its
    reference image, when defined, is a data-URL) the flag becomes true
    exactly when [originalImage] is defined, and false when it is not
    and when the creation is cleared, whatever the flag was for the
    previous creation; the other cells of the panel keep their
    values. *)
Theorem splitView_follows_defined_image : forall creation st,
  (forall c, creation = Some c -> referenceIsDataUrl c) ->
  (forall c image, creation = Some c -> originalImage c = Some image ->
     showSplitView (splitViewEffect creation st) = true)
  /\ (forall c, creation = Some c -> originalImage c = None ->
        showSplitView (splitViewEffect creation st) = false)
  /\ (creation = None -> showSplitView (splitViewEffect creation st) = false)
  /\ (showSplitView (splitViewEffect creation st) = true <->
        exists c image, creation = Some c /\ originalImage c = Some image)
  /\ splitViewEffect creation (setShowSplitView true st)
     = splitViewEffect creation (setShowSplitView false st)
  /\ loadingStep (splitViewEffect creation st) = loadingStep st
  /\ copiedPrompt (splitViewEffect creation st) = copiedPrompt st
  /\ isRecording (splitViewEffect creation st) = isRecording st.
Proof.
  intros creation st Hwf.
  destruct (splitView_follows_image creation st) as (Ht & Hf & Hrest).
  assert (Hdef : forall c image, creation = Some c ->
                   originalImage c = Some image ->
                   showSplitView (splitViewEffect creation st) = true).
  { intros c image Hc Hi. apply Ht. exists c, image.
    repeat split; auto. apply dataUrl_not_empty. exact (Hwf c Hc image Hi). }
  split; [exact Hdef|]. split; [|split; [|split; [|split]]].
  - intros c Hc Hi. apply Hf. right. exists c. auto.
  - intros Hc. apply Hf. now left.
  - split.
    + intros H. apply Ht in H as (c & image & Hc & Hi & _). eauto.
    + intros (c & image & Hc & Hi). eapply Hdef; eauto.
  - unfold splitViewEffect.
    destruct (truthy_opt (originalImageOf creation)); reflexivity.
  - exact Hrest.
Qed.

Lemma splitView_follows_defined_image_witness :
  showSplitView
    (splitViewEffect (Some screenshotCreation) (panel false false)) = true
  /\ showSplitView
       (splitViewEffect (Some linearCreation) (panel true false)) = false.
Proof.
  split.
  - refine (proj1 (@splitView_follows_defined_image
                     (Some screenshotCreation) (panel false false) _)
              screenshotCreation _ eq_refl eq_refl).
    intros c Hc image Hi. inversion Hc; subst c.
    inversion Hi; subst image. reflexivity.
  - refine (proj1 (proj2 (@splitView_follows_defined_image
                     (Some linearCreation) (panel true false) _))
              linearCreation eq_refl eq_refl).
    intros c Hc image Hi. inversion Hc; subst c. discriminate.
Defined.

(** ** File names *)

Lemma isAlnum_ascii c : isAlnum c = true -> (c < 128)%N.
Proof.
  unfold isAlnum, inRange. rewrite !orb_true_iff, !andb_true_iff, !N.leb_le.
  lia.
Qed.

Lemma replaceNonAlnum_ascii s :
  Forall (fun c => (c < 128)%N) (replaceNonAlnum s).
Proof.
  unfold replaceNonAlnum. apply Forall_forall. intros c Hc.
  apply in_map_iff in Hc as (x & <- & _).
  destruct (isAlnum x) eqn:E; [now apply isAlnum_ascii|].
  unfold underscore. lia.
Qed.

Lemma sanitizeName_map nm : sanitizeName nm = map sanitizeUnit nm.
Proof.
  unfold sanitizeName, toLowerCaseAscii, replaceNonAlnum. rewrite map_map.
  apply map_ext. intros c. unfold sanitizeUnit.
  destruct (isAlnum c); reflexivity.
Qed.

Lemma sanitizeUnit_range c : isFileNameUnit (sanitizeUnit c) = true.
Proof.
  unfold sanitizeUnit, isFileNameUnit.
  destruct (isAlnum c) eqn:E; [|reflexivity].
  unfold isAlnum, lowerUnit, inRange, underscore in *.
  destruct (65 <=? c)%N eqn:A, (c <=? 90)%N eqn:B; simpl;
    rewrite ?orb_true_iff, ?andb_true_iff, ?N.leb_le, ?N.eqb_eq in *;
    rewrite ?N.leb_le, ?N.leb_gt in *; lia.
Qed.

(** C4, as the specification states it, fails: the characters outside
    letters and digits are not removed, each is replaced by an
    underscore. *)
Lemma linear_app_file_name :
  name linearCreation = js "Linear.app Demo!"
  /\ htmlFileName linearCreation = js "linear_app_demo_.html"
  /\ htmlFileName linearCreation <> js "linearapp_demo.html".
Proof. split; [reflexivity|split; [reflexivity|vm_compute; discriminate]]. Qed.

(** C4, amended. In the download file name every code unit of the
    creation's name that is not an ASCII letter or digit is replaced by
    an underscore and the letters are lower-cased, position by position,
    so that ["Linear.app Demo!"] yields ["linear_app_demo_.html"]; the
    same sanitized name is used for the HTML download (suffix [.html])
    and for the video download (suffix [_demo.webm]). *)
Theorem download_names_sanitized : forall c,
  length (sanitizeName (name c)) = length (name c)
  /\ (forall i u, nth_error (name c) i = Some u ->
        nth_error (sanitizeName (name c)) i =
        Some (if isAlnum u then lowerUnit u else underscore))
  /\ forallb isFileNameUnit (sanitizeName (name c)) = true
  /\ Forall (fun u => (u < 128)%N) (replaceNonAlnum (name c))
  /\ htmlFileName c = sanitizeName (name c) ++ js ".html"
  /\ videoFileName c = sanitizeName (name c) ++ js "_demo.webm"
  /\ Recording.onstop c (Recording.idle
       {| loadingStep := 0; showSplitView := false;
          copiedPrompt := false; isRecording := true |})
     = (Recording.Ok tt,
        {| Recording.ui :=
             {| loadingStep := 0; showSplitView := false;
                copiedPrompt := false; isRecording := false |};
           Recording.recorder := None;
           Recording.log :=
             [Recording.Download
                {| dl_name := sanitizeName (name c) ++ js "_demo.webm";
                   dl_type := js "video/webm" |};
              Recording.TracksStopped] |})
  /\ sanitizeName (js "Linear.app Demo!") = js "linear_app_demo_".
Proof.
  intros c.
  split; [rewrite sanitizeName_map; apply length_map|].
  split.
  { intros i u H. rewrite sanitizeName_map, nth_error_map, H. reflexivity. }
  split.
  { rewrite sanitizeName_map. apply forallb_forall. intros u Hu.
    apply in_map_iff in Hu as (x & <- & _). apply sanitizeUnit_range. }
  split; [apply replaceNonAlnum_ascii|].
  repeat split.
Qed.

(** ** Copying the embedded script *)

Lemma matchTag_eq s :
  matchTag s =
  match matchTagHere s with
  | Some content => Some content
  | None => match s with [] => None | _ :: s' => matchTag s' end
  end.
Proof. destruct s; reflexivity. Qed.

Lemma matchTagHere_Some s content :
  matchTagHere s = Some content ->
  exists post,
    s = openTag ++ content ++ closeTag ++ post
    /\ includes closeTag content = false.
Proof.
  unfold matchTagHere.
  destruct (strip_prefix openTag s) as [rest|] eqn:E; [|discriminate].
  destruct (split_at_first closeTag rest) as [[c post]|] eqn:E'; [|discriminate].
  intros H. inversion H; subst c. exists post. split.
  - apply strip_prefix_Some in E. apply split_at_first_Some in E'. congruence.
  - eapply split_at_first_pre_free; [|exact E']. discriminate.
Qed.

Lemma matchTagHere_found content post :
  matchTagHere (openTag ++ content ++ closeTag ++ post) <> None.
Proof.
  unfold matchTagHere. rewrite strip_prefix_app.
  pose proof (split_at_first_found closeTag content post) as H.
  destruct (split_at_first closeTag (content ++ closeTag ++ post)) as [[? ?]|];
    congruence.
Qed.

(** A match is the leftmost tag, with the shortest content. *)
Lemma matchTag_Some : forall s content,
  matchTag s = Some content ->
  exists pre post,
    s = pre ++ openTag ++ content ++ closeTag ++ post
    /\ includes closeTag content = false
    /\ forall pre' content' post',
         s = pre' ++ openTag ++ content' ++ closeTag ++ post' ->
         length pre <= length pre'.
Proof.
  induction s as [|x s IH]; intros content H; rewrite matchTag_eq in H.
  - destruct (matchTagHere []) eqn:E; [|discriminate]. inversion H; subst.
    apply matchTagHere_Some in E as (post & E & F).
    exists [], post. repeat split; auto. intros. simpl. lia.
  - destruct (matchTagHere (x :: s)) eqn:E.
    + inversion H; subst.
      apply matchTagHere_Some in E as (post & E & F).
      exists [], post. repeat split; auto. intros. simpl. lia.
    + apply IH in H as (pre & post & Hs & F & L).
      exists (x :: pre), post. repeat split; auto.
      * cbn [app]. now rewrite <- Hs.
      * intros pre' content' post' Hs'. destruct pre' as [|y pre'].
        -- cbn [app] in Hs'. rewrite Hs' in E.
           now apply matchTagHere_found in E.
        -- cbn [app] in Hs'. inversion Hs' as [[Hx Hs'']].
           cbn [length]. apply le_n_S. eapply L. exact Hs''.
Qed.

Lemma matchTag_found : forall pre content post,
  matchTag (pre ++ openTag ++ content ++ closeTag ++ post) <> None.
Proof.
  induction pre as [|x pre IH]; intros content post; rewrite matchTag_eq.
  - cbn [app]. pose proof (matchTagHere_found content post).
    destruct (matchTagHere (openTag ++ content ++ closeTag ++ post)); congruence.
  - destruct (matchTagHere ((x :: pre) ++ openTag ++ content ++ closeTag ++ post));
      [discriminate|]. cbn [app]. apply IH.
Qed.

Lemma matchTag_None_iff s : matchTag s = None <-> ~ containsTag s.
Proof.
  split.
  - intros H (pre & content & post & ->). now apply matchTag_found in H.
  - intros H. destruct (matchTag s) as [content|] eqn:E; [|reflexivity].
    exfalso. apply H. apply matchTag_Some in E as (pre & post & E & _).
    now exists pre, content, post.
Qed.

Example matchTag_tagged :
  matchTag (html taggedCreation) = Some (js " Show the dashboard. ").
Proof. reflexivity. Qed.

Example trim_both_ends : trim (js "  a b " ++ nl) = js "a b".
Proof. reflexivity. Qed.

(** C6, as the specification states it, fails: a tag that is present but
    empty yields the fallback sentence, not its (empty) trimmed
    content. *)
Lemma empty_tag_copies_fallback :
  containsTag (html emptyTagCreation)
  /\ matchTag (html emptyTagCreation) = Some []
  /\ promptText emptyTagCreation = fallbackPrompt emptyTagCreation
  /\ promptText emptyTagCreation <> trim [].
Proof.
  split; [now exists [], [], []|].
  repeat split. vm_compute. discriminate.
Qed.

(** C6, amended. If the html contains the tag and the content of its
    first occurrence (up to the first closing tag) is not empty, the
    copied text is that content, trimmed; if the html contains no such
    tag, or the content of the first one is empty, the copied text is
    the fallback sentence, which contains the creation's name. *)
Theorem copied_prompt_text : forall c,
  (forall content,
     matchTag (html c) = Some content -> content <> [] ->
     promptText c = trim content
     /\ exists pre post,
          html c = pre ++ openTag ++ content ++ closeTag ++ post
          /\ includes closeTag content = false
          /\ forall pre' content' post',
               html c = pre' ++ openTag ++ content' ++ closeTag ++ post' ->
               length pre <= length pre')
  /\ (containsTag (html c) -> exists content, matchTag (html c) = Some content)
  /\ (~ containsTag (html c) -> promptText c = fallbackPrompt c)
  /\ (matchTag (html c) = Some [] -> promptText c = fallbackPrompt c)
  /\ includes (name c) (fallbackPrompt c) = true
  /\ handleCopyPrompt (Some c) = Some (promptText c).
Proof.
  intros c. split; [|split; [|split; [|split; [|split]]]].
  - intros content H Hne. split.
    + unfold promptText. rewrite H.
      destruct content; [congruence|reflexivity].
    + now apply matchTag_Some.
  - intros H. destruct (matchTag (html c)) as [content|] eqn:E; [eauto|].
    now apply matchTag_None_iff in E.
  - intros H. apply matchTag_None_iff in H. unfold promptText. now rewrite H.
  - intros H. unfold promptText. now rewrite H.
  - unfold fallbackPrompt. apply includes_app.
  - reflexivity.
Qed.

Lemma copied_prompt_text_witness :
  promptText taggedCreation = js "Show the dashboard.".
Proof.
  apply (proj1 (proj1 (copied_prompt_text taggedCreation)
                  (js " Show the dashboard. ") eq_refl
                  ltac:(discriminate))).
Defined.

End LivePreviewFacts.

(* ================================================================== *)
(** * Properties of the recording action *)
(* ================================================================== *)

Module RecordingFacts.
Import JS LivePreview Recording Samples.

(** The handler never lets an exception escape. *)
Lemma handleRecordVideo_total b creation w :
  fst (handleRecordVideo b creation w) = Ok tt.
Proof.
  destruct creation as [c|]; [|reflexivity].
  destruct b as [has rej newt startt mounted].
  destruct has, rej, newt, startt, mounted, (recorder w); reflexivity.
Qed.

(** Without a recorder that is recording, the end of the capture is
    silent. *)
Lemma captureEnds_inactive w :
  (forall m, recorder w = Some m -> rec_state m = Inactive) ->
  captureEnds w = (Ok tt, w).
Proof.
  intros H. unfold captureEnds.
  destruct (recorder w) as [[[|] h]|] eqn:E; try reflexivity.
  specialize (H _ eq_refl). discriminate.
Qed.

(** C8. When the browser has no screen-capture API, or the permission
    request is rejected, or the recorder cannot be created or started,
    a click on the enabled record button ends normally (the error, if
    one was raised, is caught and logged with [console.error]), no
    recorder is recording, the recording flag is false, no file is
    downloaded, neither by the handler nor when the capture ends later,
    and [getDisplayMedia] was called at most once. *)
Theorem record_failure_contained : forall b c st,
  recordEnabled st = true ->
  captureFails b = true ->
  let w := snd (handleRecordVideo b (Some c) (idle st)) in
  fst (handleRecordVideo b (Some c) (idle st)) = Ok tt
  /\ filter isRecorderStarted (log w) = []
  /\ (forall m, recorder w = Some m -> rec_state m = Inactive)
  /\ (hasGetDisplayMedia b = true ->
        exists err, In (ConsoleError errorMsg err) (log w))
  /\ (hasGetDisplayMedia b = false ->
        log w = [Alert unsupportedMsg] /\ ui w = st)
  /\ isRecording (ui w) = false
  /\ filter isDownload (log w) = []
  /\ captureEnds w = (Ok tt, w)
  /\ length (filter isGetDisplayMedia (log w)) <= 1.
Proof.
  intros b c st Hen Hfail w.
  assert (Hst : isRecording st = false).
  { unfold recordEnabled in Hen. now destruct (isRecording st). }
  assert (Hinactive : forall m, recorder w = Some m -> rec_state m = Inactive).
  { subst w. destruct b as [has rej newt startt mounted].
    unfold captureFails in Hfail. simpl in Hfail.
    destruct has, rej, newt, startt, mounted; try discriminate;
      cbn; intros m Hm; inversion Hm; reflexivity. }
  split; [apply handleRecordVideo_total|].
  split.
  { subst w. destruct b as [has rej newt startt mounted].
    unfold captureFails in Hfail. simpl in Hfail.
    destruct has, rej, newt, startt, mounted; try discriminate; reflexivity. }
  split; [exact Hinactive|].
  split.
  { subst w. destruct b as [has rej newt startt mounted].
    unfold captureFails in Hfail. simpl in Hfail. simpl. intros ->.
    destruct rej as [e|]; [exists e; cbn; auto|].
    destruct newt as [e|]; [exists e; cbn; auto|].
    destruct startt as [e|]; [|discriminate].
    exists e. destruct mounted; cbn; auto. }
  split.
  { subst w. destruct b as [has rej newt startt mounted]. simpl. intros ->.
    split; reflexivity. }
  split.
  { subst w. destruct b as [has rej newt startt mounted].
    unfold captureFails in Hfail. simpl in Hfail.
    destruct has, rej, newt, startt, mounted; try discriminate;
      cbn; auto. }
  split.
  { subst w. destruct b as [has rej newt startt mounted].
    unfold captureFails in Hfail. simpl in Hfail.
    destruct has, rej, newt, startt, mounted; try discriminate; reflexivity. }
  split; [now apply captureEnds_inactive|].
  subst w. destruct b as [has rej newt startt mounted].
  destruct has, rej, newt, startt, mounted; cbn; lia.
Qed.

Lemma record_failure_contained_witness :
  let w := snd (handleRecordVideo denyingBrowser (Some linearCreation)
                  (idle (panel false false))) in
  log w = [Alert shareAudioMsg; GetDisplayMedia;
           ConsoleError errorMsg (js "NotAllowedError")]
  /\ isRecording (ui w) = false
  /\ filter isDownload (log w) = []
  /\ captureEnds w = (Ok tt, w).
Proof.
  pose proof (record_failure_contained denyingBrowser linearCreation
                (panel false false) eq_refl eq_refl) as H.
  split; [reflexivity|]. repeat split; apply H.
Defined.

End RecordingFacts.

(* ================================================================== *)
(** * Facts about whitespace and prefixes *)
(* ================================================================== *)

Module JSMoreFacts.
Import JS JSFacts.

Lemma skip_ws_suffix s :
  exists w, s = w ++ skip_ws s /\ forallb isWhiteSpace w = true.
Proof.
  induction s as [|c s (w & E & Hw)]; [now exists []|].
  cbn [skip_ws]. destruct (isWhiteSpace c) eqn:Hc.
  - exists (c :: w). cbn. rewrite Hc, Hw. split; [now f_equal|reflexivity].
  - now exists [].
Qed.

Lemma skip_ws_app s : forall ws,
  forallb isWhiteSpace ws = true -> skip_ws (ws ++ s) = skip_ws s.
Proof.
  induction ws as [|w ws IH]; [reflexivity|]. cbn. intros H.
  apply andb_true_iff in H as [Hw H]. rewrite Hw. now apply IH.
Qed.

Lemma strip_prefix_head_ne a p c s :
  a <> c -> strip_prefix (a :: p) (c :: s) = None.
Proof.
  intros H. cbn [strip_prefix].
  destruct (N.eqb_spec a c); [congruence|reflexivity].
Qed.

Lemma strip_prefix_app_both p q s :
  strip_prefix (p ++ q) (p ++ s) = strip_prefix q s.
Proof.
  induction p as [|a p IH]; [reflexivity|].
  cbn [app strip_prefix]. now rewrite N.eqb_refl.
Qed.

Lemma ws_not_backtick c : isWhiteSpace c = true -> 96%N <> c.
Proof. intros H <-. discriminate. Qed.

Lemma ws_not_h c : isWhiteSpace c = true -> 104%N <> c.
Proof. intros H <-. discriminate. Qed.

Lemma skip_ws_head s u r : skip_ws s = u :: r -> isWhiteSpace u = false.
Proof.
  induction s as [|c s IH]; cbn [skip_ws]; [discriminate|].
  destruct (isWhiteSpace c) eqn:Hc; [exact IH|].
  intros H. inversion H; now subst.
Qed.

Lemma forallb_rev (f : N -> bool) l : forallb f (rev l) = forallb f l.
Proof.
  induction l as [|x l IH]; [reflexivity|].
  cbn [rev forallb]. rewrite forallb_app, IH. cbn. rewrite andb_true_r.
  apply andb_comm.
Qed.

(** [trim] cuts whitespace, and only whitespace, at the two ends. *)
Lemma trim_split s :
  exists front back,
    s = front ++ trim s ++ back
    /\ forallb isWhiteSpace front = true
    /\ forallb isWhiteSpace back = true.
Proof.
  destruct (skip_ws_suffix s) as (w1 & E1 & H1).
  destruct (skip_ws_suffix (rev (skip_ws s))) as (w2 & E2 & H2).
  exists w1, (rev w2). unfold trim. repeat split; auto.
  - rewrite <- rev_app_distr, <- E2, rev_involutive. exact E1.
  - now rewrite forallb_rev.
Qed.

Lemma trim_first s u r : trim s = u :: r -> isWhiteSpace u = false.
Proof.
  intros H. destruct (skip_ws_suffix (rev (skip_ws s))) as (w2 & E2 & _).
  apply (f_equal (@rev N)) in E2.
  rewrite rev_involutive, rev_app_distr in E2.
  fold (trim s) in E2. rewrite H in E2. cbn [app] in E2.
  now apply skip_ws_head in E2.
Qed.

Lemma trim_last s r u : trim s = r ++ [u] -> isWhiteSpace u = false.
Proof.
  unfold trim. intros H. apply (f_equal (@rev N)) in H.
  rewrite rev_involutive, rev_app_distr in H. cbn [rev app] in H.
  now apply skip_ws_head in H.
Qed.

Lemma trim_empty_iff s : trim s = [] <-> forallb isWhiteSpace s = true.
Proof.
  split; [|apply trim_all_ws].
  intros H. destruct (trim_split s) as (front & back & E & Hf & Hb).
  rewrite H in E. rewrite E, forallb_app, Hf. exact Hb.
Qed.

End JSMoreFacts.

(* ================================================================== *)
(** * Further properties of the input area *)
(* ================================================================== *)

Module InputAreaControlsFacts.
Import JS JSFacts InputArea InputAreaControls Samples.

Lemma state_eta (st : State) :
  {| url := url st; instructions := instructions st;
     attachedFiles := attachedFiles st; isDragging := isDragging st |} = st.
Proof. now destruct st. Qed.

(** ** Removing an attachment *)

Lemma filter_index_past {A} index : forall (l : list A) k,
  index < k -> filter_index (fun i => negb (i =? index)) k l = l.
Proof.
  induction l as [|x l IH]; intros k Hk; simpl; [reflexivity|].
  destruct (Nat.eqb_spec k index) as [->|_]; [lia|]. simpl.
  f_equal. apply IH. lia.
Qed.

Lemma filter_index_remove {A} index : forall (l : list A) k,
  k <= index ->
  filter_index (fun i => negb (i =? index)) k l =
  firstn (index - k) l ++ skipn (S (index - k)) l.
Proof.
  induction l as [|x l IH]; intros k Hk.
  - now rewrite firstn_nil, skipn_nil.
  - cbn [filter_index]. destruct (Nat.eqb_spec k index) as [->|Hne].
    + rewrite Nat.sub_diag. cbn. apply filter_index_past. lia.
    + cbn [negb]. replace (index - k) with (S (index - S k)) by lia.
      cbn [firstn skipn app]. f_equal. apply IH. lia.
Qed.

(** X1. [removeFile index] takes out exactly the attachment at [index]
    and keeps the others in their order; with an index past the end the
    state is unchanged; url and instructions are never touched. *)
Theorem removeFile_at : forall index st,
  attachedFiles (removeFile index st) =
    firstn index (attachedFiles st) ++ skipn (S index) (attachedFiles st)
  /\ (index < length (attachedFiles st) ->
        S (length (attachedFiles (removeFile index st)))
        = length (attachedFiles st)
        /\ forall i, i < index ->
             nth_error (attachedFiles (removeFile index st)) i
             = nth_error (attachedFiles st) i)
  /\ (index < length (attachedFiles st) ->
        forall i, index <= i ->
          nth_error (attachedFiles (removeFile index st)) i
          = nth_error (attachedFiles st) (S i))
  /\ (length (attachedFiles st) <= index -> removeFile index st = st)
  /\ url (removeFile index st) = url st
  /\ instructions (removeFile index st) = instructions st.
Proof.
  intros index st.
  assert (E : attachedFiles (removeFile index st) =
              firstn index (attachedFiles st) ++ skipn (S index) (attachedFiles st)).
  { unfold removeFile. cbn [setAttachedFiles attachedFiles].
    rewrite filter_index_remove by lia. now rewrite Nat.sub_0_r. }
  split; [exact E|]. split; [|split; [|split]].
  - intros Hlt. rewrite E. split.
    + rewrite length_app, length_firstn, length_skipn. lia.
    + intros i Hi. rewrite nth_error_app1 by (rewrite length_firstn; lia).
      rewrite nth_error_firstn.
      destruct (Nat.ltb_spec i index); [reflexivity|lia].
  - intros Hlt i Hi. rewrite E.
    rewrite nth_error_app2 by (rewrite length_firstn; lia).
    rewrite length_firstn, nth_error_skipn.
    f_equal. lia.
  - intros Hge. unfold removeFile, setAttachedFiles.
    rewrite filter_index_remove by lia. rewrite Nat.sub_0_r.
    rewrite firstn_all2 by lia. rewrite skipn_all2 by lia.
    rewrite app_nil_r. apply state_eta.
  - split; reflexivity.
Qed.

(** X2. Adding one file and then removing the last attachment gives the
    state back: after a file came in through the file input, or an
    image through paste or drop on an enabled component,
    [removeFile] at the old length undoes it. *)
Theorem add_then_remove_last :
  (forall f st,
     removeFile (length (attachedFiles st)) (handleFileChange (Some [f]) st) = st)
  /\ (forall props f st,
        disabled props || isGenerating props = false -> isImage f = true ->
        removeFile (length (attachedFiles st)) (handlePaste props (Some [f]) st) = st
        /\ attachedFiles
             (removeFile (length (attachedFiles st)) (handleDrop props (Some [f]) st))
           = attachedFiles st).
Proof.
  assert (R : forall (l : list File) f,
             filter_index (fun i => negb (i =? length l)) 0 (l ++ [f]) = l).
  { intros l f. rewrite filter_index_remove by lia. rewrite Nat.sub_0_r.
    rewrite firstn_app, Nat.sub_diag, firstn_all. cbn [firstn].
    rewrite skipn_all2 by (rewrite length_app; simpl; lia).
    now rewrite !app_nil_r. }
  split.
  - intros f st. unfold removeFile, handleFileChange, setAttachedFiles.
    cbn [attachedFiles url instructions isDragging]. rewrite R.
    apply state_eta.
  - intros props f st G Hf. split.
    + unfold removeFile, handlePaste. rewrite G. cbn [filter]. rewrite Hf.
      cbn [length Nat.ltb Nat.leb]. unfold setAttachedFiles.
      cbn [attachedFiles url instructions isDragging]. rewrite R.
      apply state_eta.
    + unfold removeFile, handleDrop. rewrite G. cbn [filter]. rewrite Hf.
      unfold setAttachedFiles, setIsDragging.
      cbn [attachedFiles url instructions isDragging]. apply R.
Qed.

(** ** Edits leave the text fields alone *)

(** X6. No paste, file choice, drop, removal or drag movement changes
    the url or the instructions; all of them but the removal keep the
    attachments there were, in place, at the front of the list; and a
    drop always ends the drag state, also on a disabled component. *)
Theorem edits_keep_text : forall props e st,
  url (applyEdit props e st) = url st
  /\ instructions (applyEdit props e st) = instructions st
  /\ match e with
     | Remove _ =>
         length (attachedFiles (applyEdit props e st)) <= length (attachedFiles st)
     | _ =>
         exists added,
           attachedFiles (applyEdit props e st) = attachedFiles st ++ added
     end
  /\ match e with
     | Drop _ | DragLeave => isDragging (applyEdit props e st) = false
     | DragOver => isDragging (applyEdit props e st) = true
     | _ => isDragging (applyEdit props e st) = isDragging st
     end.
Proof.
  intros props e st. destruct e as [files|files|files|index| |]; cbn [applyEdit].
  - unfold handlePaste. destruct (disabled props || isGenerating props).
    { repeat split; auto. exists []. now rewrite app_nil_r. }
    destruct files as [[|f files]|];
      try (repeat split; auto; exists []; now rewrite app_nil_r).
    destruct (0 <? length (filter isImage (f :: files))).
    + repeat split; auto. now exists (filter isImage (f :: files)).
    + repeat split; auto. exists []. now rewrite app_nil_r.
  - unfold handleFileChange. destruct files as [[|f files]|];
      try (repeat split; auto; exists []; now rewrite app_nil_r).
    repeat split; auto. now exists (f :: files).
  - unfold handleDrop. destruct (disabled props || isGenerating props).
    { repeat split; auto. exists []. cbn. now rewrite app_nil_r. }
    destruct files as [[|f files]|];
      try (repeat split; auto; exists []; cbn; now rewrite app_nil_r).
    repeat split; auto. now exists (filter isImage (f :: files)).
  - repeat split; auto.
    unfold removeFile. cbn [setAttachedFiles attachedFiles].
    rewrite filter_index_remove by lia. rewrite Nat.sub_0_r.
    rewrite length_app, length_firstn, length_skipn. lia.
  - repeat split; auto. exists []. cbn. now rewrite app_nil_r.
  - repeat split; auto. exists []. cbn. now rewrite app_nil_r.
Qed.

(** ** Submitting again, suggestions *)

Lemma nothingToSubmit_after st :
  nothingToSubmit st = false ->
  nothingToSubmit (fst (handleSubmit st)) = negb (truthy (trim (url st))).
Proof.
  intros H. unfold handleSubmit. rewrite H. cbn [fst].
  unfold nothingToSubmit, setAttachedFiles, setInstructions.
  cbn [url instructions attachedFiles].
  destruct (truthy (trim (url st))); reflexivity.
Qed.

(** X3. After a submit that went through, the url is all that is left:
    a second submit goes through exactly when the url is not blank, and
    then calls [onGenerate] with that url, empty instructions and no
    files; with a blank url it is rejected. *)
Theorem resubmit_needs_url : forall st,
  nothingToSubmit st = false ->
  let st1 := fst (handleSubmit st) in
  nothingToSubmit st1 = negb (truthy (trim (url st)))
  /\ (trim (url st) <> [] ->
        snd (handleSubmit st1) = [OnGenerate (url st) [] []])
  /\ (trim (url st) = [] -> handleSubmit st1 = (st1, [])).
Proof.
  intros st H st1. pose proof (nothingToSubmit_after st H) as G.
  fold st1 in G. split; [exact G|]. split.
  - intros Hu. destruct (trim (url st)) eqn:E; [congruence|].
    cbn in G. unfold handleSubmit at 1. rewrite G. cbn [snd].
    subst st1. unfold handleSubmit. rewrite H. reflexivity.
  - intros Hu. rewrite Hu in G. cbn in G. unfold handleSubmit at 1.
    now rewrite G.
Qed.

Lemma resubmit_needs_url_witness :
  snd (handleSubmit (fst (handleSubmit
         (input (js "https://linear.app") (js "show issue creation") [png]))))
    = [OnGenerate (js "https://linear.app") [] []]
  /\ snd (handleSubmit (fst (handleSubmit (input [] (js "show it") [png])))) = [].
Proof.
  split.
  - apply (resubmit_needs_url
             (input (js "https://linear.app") (js "show issue creation") [png])
             eq_refl). discriminate.
  - pose proof (resubmit_needs_url (input [] (js "show it") [png]) eq_refl)
      as (_ & _ & H).
    now rewrite (H eq_refl).
Defined.

(** X4. Whenever the suggestion chips are rendered, all three inputs
    are empty, the submit button is disabled and a submit (by key) is
    rejected. *)
Theorem suggestions_imply_disabled : forall props st,
  suggestionsVisible props st = true ->
  url st = [] /\ instructions st = [] /\ attachedFiles st = []
  /\ submitDisabled props st = true
  /\ handleKeyDown {| key := js "Enter"; shiftKey := false |} st = (st, []).
Proof.
  intros props st H. unfold suggestionsVisible in H.
  rewrite !andb_true_iff in H. destruct H as [[[_ Hu] Hi] Hf].
  destruct (url st) eqn:Eu; [|discriminate].
  destruct (instructions st) eqn:Ei; [|discriminate].
  destruct (attachedFiles st) eqn:Ef; [|discriminate].
  assert (G : nothingToSubmit st = true).
  { unfold nothingToSubmit. now rewrite Eu, Ei, Ef. }
  repeat split.
  - unfold submitDisabled. now rewrite G.
  - unfold handleKeyDown. cbn. unfold handleSubmit. now rewrite G.
Qed.

Lemma suggestions_imply_disabled_witness :
  submitDisabled idleProps (input [] [] []) = true.
Proof.
  apply (suggestions_imply_disabled idleProps (input [] [] []) eq_refl).
Defined.

(** X5. A click on any of the three suggestion chips, outside a
    generation, hides the chips, enables the submit button, and makes
    the next submit call [onGenerate] with the chip's url and prompt and
    the attachments present. *)
Theorem suggestion_chip_enables_submit : forall props st u p,
  In (u, p) suggestions ->
  isGenerating props = false ->
  let st1 := fillExample u p st in
  suggestionsVisible props st1 = false
  /\ submitDisabled props st1 = false
  /\ snd (handleSubmit st1) = [OnGenerate u p (attachedFiles st)]
  /\ url (fst (handleSubmit st1)) = u.
Proof.
  intros props st u p Hin Hg st1. subst st1.
  unfold suggestionsVisible, submitDisabled. rewrite Hg.
  assert (G : nothingToSubmit (fillExample u p st) = false
              /\ truthy u = true).
  { cbn in Hin. destruct Hin as [E|[E|[E|[]]]]; inversion E; subst;
      split; reflexivity. }
  destruct G as [G Hu]. rewrite G.
  unfold handleSubmit. rewrite G.
  cbn [fillExample setInstructions setUrl url instructions attachedFiles
       snd fst setAttachedFiles].
  rewrite Hu. repeat split; reflexivity.
Qed.

Lemma suggestion_chip_enables_submit_witness :
  snd (handleSubmit
         (fillExample (js "https://stripe.com")
            (js "Demo the payments dashboard. Scroll down to show the revenue chart, hover over the bars to show tooltips, and click 'Export'.")
            (input [] [] [])))
  = [OnGenerate (js "https://stripe.com")
       (js "Demo the payments dashboard. Scroll down to show the revenue chart, hover over the bars to show tooltips, and click 'Export'.")
       []].
Proof.
  apply (@suggestion_chip_enables_submit idleProps (input [] [] [])
           (js "https://stripe.com") _ (or_intror (or_introl eq_refl)) eq_refl).
Defined.

End InputAreaControlsFacts.

(* ================================================================== *)
(** * Further properties of the generation client *)
(* ================================================================== *)

Module GenerationClientFacts.
Import JS JSFacts JSMoreFacts Gemini GenerationClient Samples.

(** One replacement of an anchored prefix followed by whitespace. *)
Lemma prefix_step p x :
  exists a,
    x = a ++ match strip_prefix p x with Some r => skip_ws r | None => x end
    /\ (a = [] \/ startsWith p a = true).
Proof.
  destruct (strip_prefix p x) as [r|] eqn:E.
  - apply strip_prefix_Some in E. destruct (skip_ws_suffix r) as (w & Er & _).
    exists (p ++ w). split.
    + rewrite <- app_assoc. now rewrite <- Er.
    + right. apply startsWith_app.
  - exists []. auto.
Qed.

Lemma endsWith_app p x : endsWith p (x ++ p) = true.
Proof. unfold endsWith. rewrite rev_app_distr. apply startsWith_app. Qed.

Lemma firstn_drop_suffix (x p : jsstring) :
  firstn (length (x ++ p) - length p) (x ++ p) = x.
Proof.
  rewrite length_app, Nat.add_sub, firstn_app, Nat.sub_diag, firstn_all.
  cbn. apply app_nil_r.
Qed.

Lemma endsWith_fence_last x w :
  w <> 96%N -> endsWith fence (x ++ [w]) = false.
Proof.
  intros H. unfold endsWith, startsWith. rewrite rev_app_distr.
  change (rev [w] ++ rev x) with (w :: rev x).
  change (rev fence) with (96 :: [96; 96])%N.
  rewrite strip_prefix_head_ne by congruence. reflexivity.
Qed.

Lemma startsWith_app_l p a b :
  startsWith p a = true -> startsWith p (a ++ b) = true.
Proof.
  intros H. apply startsWith_true in H as [r ->].
  rewrite <- app_assoc. apply startsWith_app.
Qed.

Lemma stripFences_cuts text :
  exists front back,
    text = front ++ stripFences text ++ back
    /\ (front = [] \/ startsWith fence front = true)
    /\ (back = [] \/ back = fence).
Proof.
  unfold stripFences.
  pose proof (prefix_step fence_html text) as (a1 & E1 & H1).
  change (text = a1 ++ replace_fence_html text) in E1.
  pose proof (prefix_step fence (replace_fence_html text)) as (a2 & E2 & H2).
  change (replace_fence_html text = a2 ++ replace_fence (replace_fence_html text))
    in E2.
  generalize dependent (replace_fence_html text). intros x1 E1 E2.
  generalize dependent (replace_fence x1). intros x2 E2.
  assert (E3 : exists back, x2 = replace_fence_end x2 ++ back
                            /\ (back = [] \/ back = fence)).
  { unfold replace_fence_end. destruct (endsWith fence x2) eqn:He.
    - apply endsWith_true in He as [r Hr]. exists fence. rewrite Hr.
      rewrite firstn_drop_suffix. auto.
    - exists []. rewrite app_nil_r. auto. }
  destruct E3 as (back & E3 & H3).
  generalize dependent (replace_fence_end x2). intros x3 E3.
  exists (a1 ++ a2), back. subst text x1 x2. split; [|split].
  - now rewrite <- app_assoc.
  - destruct H1 as [->|H1]; [exact H2|]. right.
    apply startsWith_app_l.
    apply startsWith_true in H1 as [r ->].
    change fence_html with (fence ++ js "html").
    rewrite <- app_assoc. apply startsWith_app.
  - exact H3.
Qed.

(** X7. Stripping only takes text away at the two ends: the result is
    a contiguous part of the input, what is cut in front is nothing or
    begins with a fence, and what is cut at the end is nothing or one
    fence. *)
Theorem stripFences_cuts_ends : forall text,
  exists front back,
    text = front ++ stripFences text ++ back
    /\ (front = [] \/ startsWith fence front = true)
    /\ (back = [] \/ back = fence)
    /\ length (stripFences text) <= length text.
Proof.
  intros text. destruct (stripFences_cuts text) as (front & back & E & Hf & Hb).
  exists front, back. repeat split; auto.
  rewrite E at 2. rewrite !length_app. lia.
Qed.

Lemma unwrap_html_prefix ws c tail :
  forallb isWhiteSpace ws = true -> isWhiteSpace c = false ->
  replace_fence_html (fence_html ++ ws ++ c :: tail) = c :: tail.
Proof.
  intros Hws Hc. unfold replace_fence_html.
  rewrite strip_prefix_app, skip_ws_app by exact Hws.
  cbn [skip_ws]. now rewrite Hc.
Qed.

Lemma unwrap_plain_prefix w ws c tail :
  isWhiteSpace w = true -> forallb isWhiteSpace ws = true ->
  isWhiteSpace c = false ->
  replace_fence (replace_fence_html (fence ++ w :: ws ++ c :: tail)) = c :: tail.
Proof.
  intros Hw Hws Hc.
  assert (E : replace_fence_html (fence ++ w :: ws ++ c :: tail)
              = fence ++ w :: ws ++ c :: tail).
  { unfold replace_fence_html.
    change fence_html with (fence ++ 104 :: js "tml")%N.
    rewrite strip_prefix_app_both.
    rewrite strip_prefix_head_ne by now apply ws_not_h. reflexivity. }
  rewrite E. unfold replace_fence.
  rewrite strip_prefix_app. cbn [skip_ws]. rewrite Hw.
  rewrite skip_ws_app by exact Hws. cbn [skip_ws]. now rewrite Hc.
Qed.

Lemma no_backtick_no_fence c tail :
  c <> 96%N -> replace_fence (c :: tail) = c :: tail.
Proof.
  intros H. unfold replace_fence.
  change fence with (96 :: [96; 96])%N.
  rewrite strip_prefix_head_ne by congruence. reflexivity.
Qed.

(** X8. A document wrapped in one fence comes out bare: if the body
    begins with a code unit that is neither whitespace nor a backtick,
    then the html fence, whitespace, the body and a closing fence are
    stripped to the body; so is the plain fence, when at least one
    whitespace follows it. *)
Theorem stripFences_unwraps : forall ws c rest,
  forallb isWhiteSpace ws = true ->
  isWhiteSpace c = false ->
  c <> 96%N ->
  stripFences (fence_html ++ ws ++ (c :: rest) ++ fence) = c :: rest
  /\ (forall w, isWhiteSpace w = true ->
        stripFences (fence ++ (w :: ws) ++ (c :: rest) ++ fence) = c :: rest)
  /\ stripFences (c :: rest ++ fence) = c :: rest.
Proof.
  intros ws c rest Hws Hc Hb.
  assert (E3 : replace_fence_end ((c :: rest) ++ fence) = c :: rest).
  { unfold replace_fence_end. rewrite endsWith_app. apply firstn_drop_suffix. }
  unfold stripFences. split; [|split].
  - cbn [app]. rewrite unwrap_html_prefix by assumption.
    rewrite no_backtick_no_fence by assumption. exact E3.
  - intros w Hw. cbn [app]. rewrite unwrap_plain_prefix by assumption.
    exact E3.
  - change (c :: rest ++ fence) with ((c :: rest) ++ fence).
    assert (H0 : replace_fence_html ((c :: rest) ++ fence) = (c :: rest) ++ fence).
    { unfold replace_fence_html. change fence_html with (96 :: js "``html")%N.
      cbn [app]. rewrite strip_prefix_head_ne by congruence. reflexivity. }
    rewrite H0. cbn [app]. rewrite no_backtick_no_fence by assumption.
    exact E3.
Qed.

Lemma stripFences_unwraps_witness :
  stripFences (fence_html ++ nl ++ js "<!DOCTYPE html>" ++ fence)
  = js "<!DOCTYPE html>".
Proof.
  apply (stripFences_unwraps nl (c := 60%N) (js "!DOCTYPE html>") eq_refl eq_refl).
  discriminate.
Defined.

(** X9. The closing fence is removed only at the very end of the text:
    when anything other than a backtick follows it, a trailing newline
    for instance, the opening fence is stripped and the closing fence
    stays in the result. *)
Theorem stripFences_keeps_fence_before_tail : forall ws c rest tail w,
  forallb isWhiteSpace ws = true ->
  isWhiteSpace c = false ->
  c <> 96%N ->
  w <> 96%N ->
  stripFences (fence_html ++ ws ++ (c :: rest) ++ fence ++ tail ++ [w])
  = (c :: rest) ++ fence ++ tail ++ [w].
Proof.
  intros ws c rest tail w Hws Hc Hb Hw. unfold stripFences.
  cbn [app]. rewrite unwrap_html_prefix by assumption.
  rewrite no_backtick_no_fence by assumption.
  unfold replace_fence_end.
  replace (c :: rest ++ fence ++ tail ++ [w])
    with ((c :: rest ++ fence ++ tail) ++ [w])
    by (cbn [app]; now rewrite <- !app_assoc).
  now rewrite endsWith_fence_last.
Qed.

Lemma stripFences_keeps_fence_before_tail_witness :
  stripFences (fence_html ++ nl ++ js "<!DOCTYPE html>" ++ nl ++ fence ++ nl)
  = js "<!DOCTYPE html>" ++ nl ++ fence ++ nl.
Proof.
  apply (stripFences_keeps_fence_before_tail nl (c := 60%N)
           (js "!DOCTYPE html>" ++ nl) [] (w := 10%N) eq_refl eq_refl);
    discriminate.
Defined.

(** ** The call *)

Lemma cleanResponse_stripFences text :
  cleanResponse text = stripFences (responseTextOrPlaceholder text).
Proof. reflexivity. Qed.

(** X10. [bringToLife] sends exactly one request, with the fixed model
    name and the parts of the request; it fails exactly when the call
    fails, with the same error, which it logs once; and when the call
    succeeds it returns a contiguous part of the response text, or of
    the placeholder when the response has no text, and logs nothing. *)
Theorem bringToLife_outcome :
  forall SYSTEM_INSTRUCTION generateContent url instructions images,
    let request := requestOf SYSTEM_INSTRUCTION url instructions images in
    let run := bringToLife SYSTEM_INSTRUCTION generateContent url instructions images in
    filter isGenerateContent (snd run) = [GenerateContent request]
    /\ model request = GEMINI_MODEL
    /\ contents request = bringToLife_parts url instructions images
    /\ (forall e, fst run = Recording.Thrown e <->
          generateContent request = Rejected e)
    /\ (forall e, generateContent request = Rejected e ->
          snd run = [GenerateContent request; LogError generationErrorMsg e])
    /\ (forall text, generateContent request = Resolved text ->
          fst run = Recording.Ok (cleanResponse text)
          /\ snd run = [GenerateContent request]
          /\ exists front back,
               responseTextOrPlaceholder text
               = front ++ cleanResponse text ++ back).
Proof.
  intros SI api url instructions images request run.
  subst run. unfold bringToLife. fold request.
  destruct (api request) as [text|e] eqn:E; cbn [fst snd filter isGenerateContent].
  - split; [reflexivity|]. split; [reflexivity|]. split; [reflexivity|].
    split; [intros e0; split; discriminate|].
    split; [discriminate|].
    intros text0 Ht. inversion Ht; subst text0.
    split; [reflexivity|]. split; [reflexivity|].
    destruct (stripFences_cuts (responseTextOrPlaceholder text))
      as (front & back & Hcut & _).
    exists front, back. exact Hcut.
  - split; [reflexivity|]. split; [reflexivity|]. split; [reflexivity|].
    split; [intros e0; split; congruence|].
    split; [intros e0 He; now inversion He|].
    discriminate.
Qed.

End GenerationClientFacts.

(* ================================================================== *)
(** * Further properties of the preview panel *)
(* ================================================================== *)

Module PreviewRenderFacts.
Import JS JSFacts LivePreview PreviewRender Samples.

(** ** Loading steps *)

Lemma advanceStep_iter n : Nat.iter n advanceStep 0 = Nat.min n 4.
Proof.
  induction n as [|n IH]; [reflexivity|].
  rewrite Nat.iter_succ, IH. unfold advanceStep.
  destruct (Nat.ltb_spec (Nat.min n 4) 4); lia.
Qed.

Lemma intervalTick_iter n : forall st,
  Nat.iter n intervalTick st =
  setLoadingStep (Nat.iter n advanceStep (loadingStep st)) st.
Proof.
  induction n as [|n IH]; intros st.
  - now destruct st.
  - rewrite !Nat.iter_succ, IH. reflexivity.
Qed.

(** X11. While loading, [n] periods of the interval after the effect
    ran the step is [min n 4] (0 when not loading): it never passes 4,
    exactly one of the five rows is active, the rows before it are the
    completed ones, and the last row is never shown as completed; the
    other cells of the panel are not touched. *)
Theorem loading_rows_progress : forall isLoading st n,
  let s := loadingAfter isLoading n st in
  let k := if isLoading then Nat.min n 4 else 0 in
  loadingStep s = k
  /\ k <= 4
  /\ (forall i, rowActive i s = true <-> i = k)
  /\ (forall i, rowCompleted i s = true <-> i < k)
  /\ filter (fun i => rowActive i s) (seq 0 (length loadingRows)) = [k]
  /\ rowCompleted (length loadingRows - 1) s = false
  /\ showSplitView s = showSplitView st
  /\ isRecording s = isRecording st
  /\ copiedPrompt s = copiedPrompt st.
Proof.
  intros isLoading st n s k.
  assert (Hk : k <= 4) by (subst k; destruct isLoading; lia).
  assert (E : s = setLoadingStep k st).
  { subst s k. unfold loadingAfter. rewrite intervalTick_iter.
    assert (L : loadingEffect isLoading st = setLoadingStep 0 st)
      by (unfold loadingEffect; now destruct isLoading).
    rewrite L. cbn [loadingStep setLoadingStep showSplitView copiedPrompt
                    isRecording].
    destruct isLoading; [now rewrite advanceStep_iter|reflexivity]. }
  rewrite E. unfold rowActive, rowCompleted. cbn [loadingStep setLoadingStep
    showSplitView copiedPrompt isRecording].
  split; [reflexivity|]. split; [exact Hk|].
  split; [|split; [|split; [|split]]].
  - intros i. rewrite Nat.eqb_eq. split; congruence.
  - intros i. apply Nat.ltb_lt.
  - destruct k as [|[|[|[|[|m]]]]]; try reflexivity. lia.
  - apply Nat.ltb_ge. cbn. lia.
  - repeat split.
Qed.

(** ** What is rendered *)

(** X12. While loading, the panel shows the loading view and neither
    the export actions nor the reference panel.  The preview frame is
    rendered only for a creation with non-empty html, as its [srcDoc],
    and then the actions are rendered too; the reference panel only
    beside the frame and for a non-empty reference image.  A creation
    with empty html gets the actions but no frame. *)
Theorem rendering_conditions : forall props st,
  (isLoading props = true ->
     mainArea props = LoadingView /\ actionsShown props = false
     /\ compareShown props = false /\ referenceShown props st = false
     /\ title props = js "Generating Assets...")
  /\ (forall doc, mainArea props = PreviewFrame doc ->
        doc <> [] /\ actionsShown props = true
        /\ exists c, creation props = Some c /\ doc = html c /\ title props = name c)
  /\ (referenceShown props st = true ->
        showSplitView st = true /\ compareShown props = true
        /\ exists c img,
             creation props = Some c /\ originalImage c = Some img /\ img <> []
             /\ mainArea props = PreviewFrame (html c))
  /\ (forall c, isLoading props = false -> creation props = Some c ->
        html c = [] ->
        mainArea props = NoContent /\ actionsShown props = true
        /\ referenceShown props st = false).
Proof.
  intros [creation loading focused] st.
  unfold referenceShown, compareShown, actionsShown, mainArea, title.
  cbn [PreviewRender.creation PreviewRender.isLoading].
  split; [|split; [|split]].
  - intros ->. repeat split.
  - intros doc H. destruct loading; [discriminate|].
    destruct creation as [c|]; [|discriminate]. cbn in H.
    destruct (html c) as [|u d] eqn:Eh; [discriminate|].
    inversion H; subst doc. split; [discriminate|]. split; [reflexivity|].
    exists c. rewrite Eh. auto.
  - intros H. destruct loading; [discriminate|].
    destruct creation as [c|]; [|discriminate]. cbn in H |- *.
    destruct (html c) as [|u d] eqn:Eh; [discriminate|]. cbn in H.
    apply andb_true_iff in H as [Hs Hi]. rewrite Hs, Hi.
    split; [reflexivity|]. split; [reflexivity|].
    destruct (originalImage c) as [[|v img]|] eqn:Ei; try discriminate.
    exists c, (v :: img).
    split; [reflexivity|]. split; [exact Ei|]. split; [discriminate|].
    now rewrite Eh.
  - intros c -> Hc Hh. inversion Hc; subst creation. cbn. rewrite Hh.
    repeat split.
Qed.

Lemma toggle_iter n : forall st,
  showSplitView (Nat.iter n toggleSplitView st) =
  if Nat.even n then showSplitView st else negb (showSplitView st).
Proof.
  induction n as [|n IH]; intros st; [reflexivity|].
  rewrite Nat.iter_succ. unfold toggleSplitView at 1.
  cbn [showSplitView setShowSplitView].
  rewrite IH, Nat.even_succ, <- Nat.negb_even.
  destruct (Nat.even n), (showSplitView st); reflexivity.
Qed.

(** X13. Once a creation is loaded, the reference panel is shown after
    an even number of clicks on the compare button and hidden after an
    odd number, provided the creation has non-empty html and a
    non-empty reference image; without those it is hidden whatever the
    number of clicks. *)
Theorem compare_toggles_reference : forall c focused st n,
  referenceShown {| creation := Some c; isLoading := false; isFocused := focused |}
    (Nat.iter n toggleSplitView (splitViewEffect (Some c) st))
  = truthy (html c) && truthy_opt (originalImage c) && Nat.even n.
Proof.
  intros c focused st n. unfold referenceShown, mainArea.
  cbn [creation isLoading htmlOf truthy_opt originalImageOf].
  rewrite toggle_iter. unfold splitViewEffect.
  cbn [originalImageOf].
  destruct (truthy (html c)), (truthy_opt (originalImage c)), (Nat.even n);
    reflexivity.
Qed.

(** ** File names *)

Lemma sanitizeUnit_fixed c : sanitizeUnit c = c <-> isFileNameUnit c = true.
Proof.
  split.
  - intros H. rewrite <- H. apply LivePreviewFacts.sanitizeUnit_range.
  - unfold isFileNameUnit, sanitizeUnit, isAlnum, lowerUnit, inRange, underscore.
    rewrite !orb_true_iff, !andb_true_iff, !N.leb_le, N.eqb_eq.
    intros [[[A B] | [A B]] | E]; [| |now subst c].
    + destruct (N.leb_spec 97 c), (N.leb_spec c 122); try lia. cbn.
      destruct (N.leb_spec 65 c), (N.leb_spec c 90); try lia; reflexivity.
    + destruct (N.leb_spec 97 c), (N.leb_spec c 122); try lia; cbn;
      destruct (N.leb_spec 65 c), (N.leb_spec c 90); try lia; cbn;
      destruct (N.leb_spec 48 c), (N.leb_spec c 57); try lia; reflexivity.
Qed.

(** X17. Sanitizing a name twice gives the same as sanitizing it once,
    and the names that pass unchanged are exactly those made of
    lower-case ASCII letters, digits and underscores. *)
Theorem sanitizeName_idempotent : forall nm,
  sanitizeName (sanitizeName nm) = sanitizeName nm
  /\ (sanitizeName nm = nm <-> forallb isFileNameUnit nm = true).
Proof.
  intros nm. rewrite !LivePreviewFacts.sanitizeName_map. split.
  - rewrite map_map. apply map_ext. intros c.
    apply sanitizeUnit_fixed, LivePreviewFacts.sanitizeUnit_range.
  - induction nm as [|c nm IH]; [split; reflexivity|].
    cbn [map forallb]. rewrite andb_true_iff, <- IH, <- sanitizeUnit_fixed.
    split.
    + intros H. inversion H as [[H1 H2]]. rewrite !H1, !H2. auto.
    + intros [H1 H2]. now rewrite H1, H2.
Qed.

End PreviewRenderFacts.

(* ================================================================== *)
(** * Further properties of the export actions *)
(* ================================================================== *)

Module ExportFacts.
Import JS JSFacts JSMoreFacts LivePreview Recording Samples MoreSamples.

(** X18. When the first tag has content, the copied text is that
    content without its leading and trailing whitespace and with
    nothing else removed: it begins and ends with a code unit that is
    not whitespace, and it is the empty string, not the fallback
    sentence, exactly when the content is whitespace only. *)
Theorem copied_text_is_trimmed_content : forall c content,
  matchTag (html c) = Some content ->
  content <> [] ->
  (exists front back,
     content = front ++ promptText c ++ back
     /\ forallb isWhiteSpace front = true
     /\ forallb isWhiteSpace back = true)
  /\ (forall u rest, promptText c = u :: rest -> isWhiteSpace u = false)
  /\ (forall rest u, promptText c = rest ++ [u] -> isWhiteSpace u = false)
  /\ (promptText c = [] <-> forallb isWhiteSpace content = true)
  /\ (forallb isWhiteSpace content = true -> promptText c <> fallbackPrompt c).
Proof.
  intros c content Hm Hne.
  assert (E : promptText c = trim content).
  { unfold promptText. rewrite Hm. destruct content; [congruence|reflexivity]. }
  rewrite E. split; [apply trim_split|].
  split; [apply trim_first|]. split; [apply trim_last|].
  split; [apply trim_empty_iff|].
  intros H. apply trim_empty_iff in H. rewrite H. discriminate.
Qed.

Lemma copied_text_is_trimmed_content_witness :
  promptText blankTagCreation = []
  /\ promptText blankTagCreation <> fallbackPrompt blankTagCreation.
Proof.
  pose proof (@copied_text_is_trimmed_content blankTagCreation
                (js "  ") eq_refl ltac:(discriminate))
    as (_ & _ & _ & H1 & H2).
  split; [now apply H1|now apply H2].
Defined.

(** ** A recording from start to end *)

(** X16. When the capture is granted and the recorder starts, a click
    on the enabled record button sets the recording flag and starts the
    recorder, and does nothing else that can be observed, whether the
    frame is mounted or not; when the capture then ends, exactly one
    file named after the sanitized creation name with suffix
    [_demo.webm] is downloaded, the tracks are stopped and the flag is
    cleared; a further end of capture does nothing. *)
Theorem record_then_stop : forall b c st,
  recordEnabled st = true ->
  captureFails b = false ->
  let w := snd (handleRecordVideo b (Some c) (idle st)) in
  let w' := snd (captureEnds w) in
  fst (handleRecordVideo b (Some c) (idle st)) = Ok tt
  /\ isRecording (ui w) = true
  /\ recorder w = Some {| rec_state := Active; rec_onstop := Some c |}
  /\ log w = [Alert shareAudioMsg; GetDisplayMedia; RecorderStarted]
  /\ log w' = log w
             ++ [Download {| dl_name := sanitizeName (name c) ++ js "_demo.webm";
                             dl_type := js "video/webm" |};
                 TracksStopped]
  /\ isRecording (ui w') = false
  /\ recordEnabled (ui w') = true
  /\ showSplitView (ui w') = showSplitView st
  /\ captureEnds w' = (Ok tt, w').
Proof.
  intros [has rej newt startt mounted] c st _ Hok.
  unfold captureFails in Hok. cbn in Hok.
  destruct has; [|discriminate].
  destruct rej; [discriminate|]. destruct newt; [discriminate|].
  destruct startt; [discriminate|].
  destruct mounted; cbn; repeat split.
Qed.

Lemma record_then_stop_witness :
  filter isDownload
    (log (snd (captureEnds
            (snd (handleRecordVideo grantingBrowser (Some linearCreation)
                    (idle (panel false false)))))))
  = [Download {| dl_name := js "linear_app_demo__demo.webm";
                 dl_type := js "video/webm" |}].
Proof.
  pose proof (@record_then_stop grantingBrowser linearCreation
                (panel false false) eq_refl eq_refl)
    as (_ & _ & _ & _ & H & _).
  rewrite H. reflexivity.
Defined.

(** ** Download *)

(** X19. What is downloaded is what is shown: whenever the preview
    frame is rendered with a document, the HTML download offers that
    same document, as [text/html], under the sanitized creation name
    with suffix [.html]. *)
Theorem download_matches_preview : forall props doc,
  PreviewRender.mainArea props = PreviewRender.PreviewFrame doc ->
  exists c,
    PreviewRender.creation props = Some c
    /\ handleDownloadHtml (PreviewRender.creation props)
       = Some ({| dl_name := sanitizeName (name c) ++ js ".html";
                  dl_type := js "text/html" |}, doc).
Proof.
  intros [creation loading focused] doc. unfold PreviewRender.mainArea.
  cbn [PreviewRender.creation PreviewRender.isLoading].
  destruct loading; [discriminate|].
  destruct creation as [c|]; [|discriminate].
  cbn [PreviewRender.htmlOf truthy_opt handleDownloadHtml].
  destruct (truthy (html c)); [|discriminate].
  intros H. inversion H; subst doc. now exists c.
Qed.

Lemma download_matches_preview_witness :
  exists c,
    Some linearCreation = Some c
    /\ handleDownloadHtml (Some linearCreation)
       = Some ({| dl_name := sanitizeName (name c) ++ js ".html";
                  dl_type := js "text/html" |}, js "<!DOCTYPE html>").
Proof.
  apply (@download_matches_preview
           {| PreviewRender.creation := Some linearCreation;
              PreviewRender.isLoading := false;
              PreviewRender.isFocused := true |}
           (js "<!DOCTYPE html>") eq_refl).
Defined.

End ExportFacts.

(* ================================================================== *)
(** * Properties of the PDF thumbnail *)
(* ================================================================== *)

Module PdfRendererFacts.
Import JS PdfRenderer.

(** X14. [renderPdf] ends with an error message exactly when the
    library is missing or a step throws (one of two fixed texts, the
    exception itself goes to the console only); the loading flag is
    false afterwards in every case but one, the canvas that is not
    mounted, where it stays true; and the page is painted only when
    nothing failed and the canvas is there. *)
Theorem renderPdf_outcomes : forall env st,
  let st' := fst (renderPdf env st) in
  let events := snd (renderPdf env st) in
  (libLoaded env = false ->
     error st' = Some notInitializedMsg /\ loading st' = false /\ events = [])
  /\ (libLoaded env = true -> stepThrows env = true ->
        error st' = Some cannotRenderMsg /\ loading st' = false
        /\ exists e, events = [ConsoleError renderErrorMsg e])
  /\ (libLoaded env = true -> stepThrows env = false ->
        error st' = error st
        /\ loading st' = negb (canvasMounted env)
        /\ events = if canvasMounted env then [PagePainted] else [])
  /\ (loading st' = true <->
        libLoaded env = true /\ getDocumentFails env = None
        /\ getPageFails env = None /\ canvasMounted env = false).
Proof.
  intros [lib doc page canvas render] st. unfold renderPdf, stepThrows.
  cbn [libLoaded getDocumentFails getPageFails canvasMounted renderFails].
  destruct lib; cbn [negb].
  - destruct doc as [e1|]; [|destruct page as [e2|];
      [|destruct canvas; [destruct render as [e3|]|]]]; cbn;
      (split; [discriminate|]);
      (split; [intros _ H; try discriminate; eauto|]);
      (split; [intros _ H; try discriminate; auto|]);
      split; intros H; try discriminate; auto;
      destruct H as (_ & H1 & H2 & H3); discriminate.
  - cbn. split; [auto|]. split; [discriminate|]. split; [discriminate|].
    split; [discriminate|]. intros (H & _). discriminate.
Qed.

(** X15. An error, once set, is not cleared by a later run: if the
    component already shows an error and [renderPdf] then succeeds (for
    a new [dataUrl], say), the error box is still what is rendered. *)
Theorem renderPdf_error_sticks : forall env st message,
  error st = Some message ->
  message <> [] ->
  libLoaded env = true ->
  stepThrows env = false ->
  error (fst (renderPdf env st)) = Some message
  /\ view (fst (renderPdf env st)) = ErrorBox message
  /\ view st = ErrorBox message.
Proof.
  intros [lib doc page canvas render] st message He Hne Hlib Hok.
  cbn in Hlib. subst lib. unfold stepThrows in Hok. cbn in Hok.
  destruct doc; [discriminate|]. destruct page; [discriminate|].
  unfold renderPdf, view. cbn.
  destruct canvas; [destruct render; [discriminate|]|]; cbn; rewrite He;
    (destruct message; [congruence|auto]).
Qed.

Lemma renderPdf_error_sticks_witness :
  let broken := {| libLoaded := true; getDocumentFails := Some (js "InvalidPDFException");
                   getPageFails := None; canvasMounted := true;
                   renderFails := None |} in
  let sound := {| libLoaded := true; getDocumentFails := None;
                  getPageFails := None; canvasMounted := true;
                  renderFails := None |} in
  view (fst (renderPdf sound (fst (renderPdf broken initial))))
  = ErrorBox cannotRenderMsg.
Proof.
  intros broken sound.
  apply (@renderPdf_error_sticks sound (fst (renderPdf broken initial))
           cannotRenderMsg eq_refl).
  - discriminate.
  - reflexivity.
  - reflexivity.
Defined.

End PdfRendererFacts.
